(** * Upper-body measurement pipeline: calibration, gating, smoothing, lock, sizing

  A shallow embedding of [frontend/src/pages/Measure.jsx] (the measurement
  session and the two-size classifier [recommendTopSize]) and of
  [backend/routes/ml.js] (the general classifier
  [estimateSizeFromMeasurements]).

  JavaScript numbers are IEEE-754 binary64 values; they are modelled by the
  primitive floats of Rocq, which are the same binary64 values with the same
  correctly rounded operations, so that every definition below evaluates to
  what the program computes.  A value that may be [undefined]/[null] is an
  [option]. *)

From Stdlib Require Import Floats ZArith List Bool String Lia.
From Stdlib Require Import PeanoNat.
From Stdlib Require Import Sorted Permutation.
Import ListNotations.

#[local] Set Warnings "-inexact-float".
#[local] Open Scope float_scope.

(** ** JavaScript number helpers *)

Module JS.

(** ToBoolean on a number: [0], [-0] and [NaN] are falsy. *)
Definition truthy (x : float) : bool := negb (is_zero x || is_nan x).

(** ToBoolean on a number that may be [undefined] or [null]. *)
Definition truthy_opt (v : option float) : bool :=
  match v with
  | Some x => truthy x
  | None => false
  end.

(** [!v] *)
Definition not (v : option float) : bool := negb (truthy_opt v).

(** ToNumber: [undefined] becomes [NaN]. *)
Definition ToNumber (v : option float) : float :=
  match v with
  | Some x => x
  | None => nan
  end.

(** [a || b] on values. *)
Definition or (a b : option float) : option float :=
  if truthy_opt a then a else b.

(** The length of an array as a number. *)
Definition of_nat (n : nat) : float := of_uint63 (Uint63.of_Z (Z.of_nat n)).

Definition Math_abs (x : float) : float := abs x.

(** One step of the compensated (Kahan) sum of the squares of the arguments
    divided by the largest of them: the pair is [(sum, compensation)]. *)
Definition hypot_step (max : float) (acc : float * float) (absValue : float)
  : float * float :=
  let '(sum, compensation) := acc in
  let n := absValue / max in
  let summand := n * n - compensation in
  let preliminary := sum + summand in
  (preliminary, (preliminary - sum) - summand).

(** [Math.hypot] of two arguments, as the engine computes it (the language
    leaves the approximation to the implementation; this is the algorithm of
    V8): [Infinity] if an argument is infinite, else [NaN] if one is [NaN],
    else [0] if both are zero, else the square root of the compensated sum
    of the squares of the magnitudes scaled by the largest one, scaled
    back. *)
Definition Math_hypot (x y : float) : float :=
  let max := 0 in
  let max := if is_nan x then max else if max <? abs x then abs x else max in
  let max := if is_nan y then max else if max <? abs y then abs y else max in
  if max =? infinity then infinity
  else if is_nan x || is_nan y then nan
  else if max =? 0 then 0
  else
    let '(sum, _) := hypot_step max (hypot_step max (0, 0) (abs x)) (abs y) in
    sqrt sum * max.

Definition sign_bit (x : float) : bool :=
  match classify x with
  | FloatClass.NZero | FloatClass.NNormal | FloatClass.NSubn | FloatClass.NInf => true
  | _ => false
  end.

(** [Math.max] of two numbers: [NaN] is contagious and [+0] is above [-0]. *)
Definition max2 (a b : float) : float :=
  if is_nan a || is_nan b then nan
  else if a <? b then b
  else if b <? a then a
  else if sign_bit a then b else a.

Definition min2 (a b : float) : float :=
  if is_nan a || is_nan b then nan
  else if a <? b then a
  else if b <? a then b
  else if sign_bit a then a else b.

(** [Math.max(...l)] and [Math.min(...l)]; on the empty list they are
    [-Infinity] and [Infinity]. *)
Definition Math_max (l : list float) : float := fold_left max2 l neg_infinity.
Definition Math_min (l : list float) : float := fold_left min2 l infinity.

(** [l.reduce((a,b)=>a+b, 0)] *)
Definition sum (l : list float) : float := fold_left add l 0.

(** The binary64 value nearest to the rational [n / d] (ties to even), for
    [0 < n] and [0 < d] with a quotient in the normal range: what [Number]
    returns on the decimal string that [toFixed] prints. *)
Definition nearest (n d : Z) : float :=
  let e := (Z.log2 n - Z.log2 d - 53)%Z in
  let scaled (e : Z) := if (0 <=? e)%Z then (n, d * 2 ^ e)%Z else (n * 2 ^ (- e), d)%Z in
  let e := let '(a, b) := scaled (e + 1)%Z in
           if (2 ^ 52 <=? a / b)%Z then (e + 1)%Z else e in
  let '(a, b) := scaled e in
  let q := (a / b)%Z in
  let r := (a mod b)%Z in
  let q := if (b <? 2 * r)%Z then (q + 1)%Z
           else if (2 * r =? b)%Z then (if Z.even q then q else q + 1)%Z
           else q in
  Z.ldexp (of_uint63 (Uint63.of_Z q)) e.

(** [Number(x.toFixed(f))]: [x] rounded to [f] decimals (the nearest
    multiple of [10^-f], the larger in magnitude on a tie), read back as a
    number. *)
Definition Number_toFixed (f : nat) (x : float) : float :=
  match Prim2SF x with
  | S754_nan => x
  | S754_infinity _ => x
  | S754_zero _ => 0
  | S754_finite s m e =>
      if 1e21 <=? abs x then x
      else
        let p := (10 ^ Z.of_nat f)%Z in
        let num := (Z.pos m * p)%Z in
        let n := if (0 <=? e)%Z then (num * 2 ^ e)%Z
                 else ((2 * num + 2 ^ (- e)) / (2 * 2 ^ (- e)))%Z in
        if (n =? 0)%Z then (if s then neg_zero else 0)
        else if s then - nearest n p else nearest n p
  end.

End JS.

(** ** Size labels

  The strings ['XXS'] ... ['4XL'] that the classifiers return. *)

Inductive SizeLabel : Type :=
| sz_XXS | sz_XS | sz_S | sz_M | sz_L | sz_XL | sz_XXL | sz_3XL | sz_4XL.

Definition SizeLabel_eqb (a b : SizeLabel) : bool :=
match a, b with
| sz_XXS, sz_XXS | sz_XS, sz_XS | sz_S, sz_S | sz_M, sz_M | sz_L, sz_L
| sz_XL, sz_XL | sz_XXL, sz_XXL | sz_3XL, sz_3XL | sz_4XL, sz_4XL => true
| _, _ => false
end.

(** ** The two-size classifier of the measurement page *)

Module Frontend.

(** Each band adds to one of the two scores; a pair is [(lScore, xlScore)]. *)
Definition chest_score (chestCm : float) : Z * Z :=
  if 100 <=? chestCm then (0, 3)%Z
  else if 95 <=? chestCm then (0, 2)%Z
  else if 90 <=? chestCm then (0, 1)%Z
  else if 85 <=? chestCm then (2, 0)%Z
  else if 80 <=? chestCm then (1, 0)%Z
  else (0, 0)%Z.

Definition shoulder_score (shoulderCm : float) : Z * Z :=
  if 48 <=? shoulderCm then (0, 2)%Z
  else if 45 <=? shoulderCm then (0, 1)%Z
  else if 42 <=? shoulderCm then (2, 0)%Z
  else if 38 <=? shoulderCm then (1, 0)%Z
  else (0, 0)%Z.

Definition waist_score (waistCm : float) : Z * Z :=
  if 85 <=? waistCm then (0, 2)%Z
  else if 80 <=? waistCm then (0, 1)%Z
  else if 75 <=? waistCm then (2, 0)%Z
  else if 70 <=? waistCm then (1, 0)%Z
  else (0, 0)%Z.

Definition recommendTopSize (chestCm waistCm shoulderCm : option float)
  : option SizeLabel :=
  if JS.not chestCm || JS.not waistCm || JS.not shoulderCm
     || (JS.ToNumber chestCm <=? 0) || (JS.ToNumber waistCm <=? 0)
     || (JS.ToNumber shoulderCm <=? 0)
  then None
  else
    let c := chest_score (JS.ToNumber chestCm) in
    let s := shoulder_score (JS.ToNumber shoulderCm) in
    let w := waist_score (JS.ToNumber waistCm) in
    let lScore := (fst c + fst s + fst w)%Z in
    let xlScore := (snd c + snd s + snd w)%Z in
    if (lScore <? xlScore)%Z then Some sz_XL else Some sz_L.

End Frontend.

(** ** The general classifier of the backend *)

Module Backend.

Record Measurements : Type := mkMeasurements {
  chestCm : option float;
  upperWaistCm : option float;
  waistCm : option float;
  shoulderCm : option float
}.

Definition sizeOrder : list SizeLabel := [sz_XXS; sz_XS; sz_S; sz_M; sz_L; sz_XL; sz_XXL; sz_3XL; sz_4XL].

Fixpoint indexOf (x : SizeLabel) (l : list SizeLabel) : Z :=
  match l with
  | [] => (-1)%Z
  | y :: l' =>
      if SizeLabel_eqb y x then 0%Z
      else let i := indexOf x l' in if (i <? 0)%Z then (-1)%Z else (i + 1)%Z
  end.

Definition primarySize (chestCm : float) : SizeLabel :=
  if chestCm <? 80 then sz_XXS
  else if chestCm <? 85 then sz_XS
  else if chestCm <? 90 then sz_S
  else if chestCm <? 95 then sz_M
  else if chestCm <? 100 then sz_L
  else if chestCm <? 105 then sz_XL
  else if chestCm <? 110 then sz_XXL
  else if chestCm <? 115 then sz_3XL
  else sz_4XL.

Definition estimateSizeFromMeasurements (measurements : Measurements) : SizeLabel :=
  let chestCm := chestCm measurements in
  let waistCm := JS.or (upperWaistCm measurements) (waistCm measurements) in
  let shoulderCm := shoulderCm measurements in
  if JS.not chestCm || JS.not waistCm || JS.not shoulderCm
     || (JS.ToNumber chestCm <=? 0) || (JS.ToNumber waistCm <=? 0)
     || (JS.ToNumber shoulderCm <=? 0)
  then sz_M
  else
    let chestCm := JS.ToNumber chestCm in
    let waistCm := JS.ToNumber waistCm in
    let shoulderCm := JS.ToNumber shoulderCm in
    let primarySize := primarySize chestCm in
    let waistChestRatio := waistCm / chestCm in
    let sizeAdjustment :=
      if waistChestRatio <? 0.80 then (-1)%Z
      else if 0.90 <? waistChestRatio then 1%Z
      else 0%Z in
    let shoulderChestRatio := shoulderCm / chestCm in
    let sizeAdjustment :=
      if 0.60 <? shoulderChestRatio then (sizeAdjustment + 1)%Z
      else if shoulderChestRatio <? 0.50 then (sizeAdjustment - 1)%Z
      else sizeAdjustment in
    let currentIndex := indexOf primarySize sizeOrder in
    let adjustedIndex :=
      Z.max 0 (Z.min (Z.of_nat (List.length sizeOrder) - 1) (currentIndex + sizeAdjustment)) in
    nth (Z.to_nat adjustedIndex) sizeOrder sz_M.

End Backend.

(** ** The measurement page: session state and operations *)

Module Measure.

(** *** Constants *)

Definition A4_WIDTH_CM : float := 21.0.
Definition CHEST_MULTIPLIER : float := 1.75.
Definition UPPER_WAIST_FACTOR : float := 0.90.
Definition GUIDE_MARGIN : float := 0.08.
Definition STABILITY_FRAMES : nat := 12.
Definition MOVEMENT_EPS : float := 0.015.

(** *** Data *)

Inductive Phase : Type :=
  | phase_calibrate | phase_measure | phase_locked | phase_error.

Definition Phase_eqb (a b : Phase) : bool :=
  match a, b with
  | phase_calibrate, phase_calibrate | phase_measure, phase_measure
  | phase_locked, phase_locked | phase_error, phase_error => true
  | _, _ => false
  end.

(** One landmark of the pose estimator. *)
Record Landmark : Type := mkLandmark {
  x : float;
  y : float;
  visibility : option float
}.

(** The argument of the [onResults] callback: the image size and the
    landmarks, when a body was detected. *)
Record Results : Type := mkResults {
  image_width : float;
  image_height : float;
  poseLandmarks : option (list Landmark)
}.

Record Quality : Type := mkQuality {
  frames : nat;
  spreadCm : float
}.

(** The locked measurement [{ chestCm, shoulderCm, upperWaistCm, quality }]. *)
Record Meas : Type := mkMeas {
  chestCm : float;
  shoulderCm : float;
  upperWaistCm : option float;
  quality : Quality
}.

(** The state cells and refs of the component. *)
Record Session : Type := mkSession {
  phase : Phase;
  status : string;
  barPx : float;
  cmPerPx : option float;
  locked : bool;
  meas : option Meas;
  recentShoulderN : list float;
  chestBuf : list float;
  shoulderBuf : list float;
  waistBuf : list float
}.

Definition initial : Session :=
  {| phase := phase_calibrate;
     status := "Hold an A4 sheet at chest level and match the bar width.";
     barPx := 300;
     cmPerPx := None;
     locked := false;
     meas := None;
     recentShoulderN := [];
     chestBuf := [];
     shoulderBuf := [];
     waistBuf := [] |}.

Definition setStatus (msg : string) (s : Session) : Session :=
  {| phase := phase s; status := msg; barPx := barPx s; cmPerPx := cmPerPx s;
     locked := locked s; meas := meas s;
     recentShoulderN := recentShoulderN s; chestBuf := chestBuf s;
     shoulderBuf := shoulderBuf s; waistBuf := waistBuf s |}.

Definition setBarPx (v : float) (s : Session) : Session :=
  {| phase := phase s; status := status s; barPx := v; cmPerPx := cmPerPx s;
     locked := locked s; meas := meas s;
     recentShoulderN := recentShoulderN s; chestBuf := chestBuf s;
     shoulderBuf := shoulderBuf s; waistBuf := waistBuf s |}.

(** *** Sliding windows *)

(** [buf.push(v); if (buf.length > n) buf.shift()] *)
Definition push_shift (n : nat) (buf : list float) (v : float) : list float :=
  let buf := buf ++ [v] in
  if (n <? List.length buf)%nat then tl buf else buf.

(** [[...buf].sort((a,b)=>a-b)]: the stable ascending numeric sort (the
    comparator [a-b] is negative exactly when [a < b]). *)
Fixpoint insert (v : float) (l : list float) : list float :=
  match l with
  | [] => [v]
  | w :: l' => if w <? v then w :: insert v l' else v :: w :: l'
  end.

Fixpoint sort (l : list float) : list float :=
  match l with
  | [] => []
  | v :: l' => insert v (sort l')
  end.

(** [s[i]] used as a number: out of range it is [undefined], hence [NaN]. *)
Definition at_index (s : list float) (i : Z) : float :=
  if (i <? 0)%Z then nan else nth (Z.to_nat i) s nan.

(** The median of a sorted copy, as [pushMed] computes it. *)
Definition median_of (buf : list float) : float :=
  let s := sort buf in
  let m := (Z.of_nat (List.length s) / 2)%Z in
  if Z.odd (Z.of_nat (List.length s)) then at_index s m
  else (at_index s (m - 1) + at_index s m) / 2.

(** [pushMed(ref, val, n=15)]: the window after the call and the value
    returned. *)
Definition pushMed (buf : list float) (val : option float) (n : nat)
  : list float * option float :=
  match val with
  | None => (buf, None)
  | Some v =>
      let buf := push_shift n buf v in
      (buf, Some (median_of buf))
  end.

(** *** The frame callback *)

Definition getDistance (a b : Landmark) : float :=
  JS.Math_hypot (x a - x b) (y a - y b).

(** [lm[i]]; the callback reads it only where [vis i] holds. *)
Definition no_landmark : Landmark := mkLandmark nan nan None.
Definition landmark (lm : list Landmark) (i : nat) : Landmark :=
  nth i lm no_landmark.

(** [(lm[i]?.visibility ?? 0) > 0.45] *)
Definition vis (lm : list Landmark) (i : nat) : bool :=
  match nth_error lm i with
  | Some p => 0.45 <? match visibility p with Some v => v | None => 0 end
  | None => false
  end.

Definition shouldersOK (lm : list Landmark) : bool := vis lm 11 && vis lm 12.
Definition hipsOK (lm : list Landmark) : bool := vis lm 23 || vis lm 24.

Definition hip_of (lm : list Landmark) : Landmark :=
  if vis lm 23 then landmark lm 23 else landmark lm 24.

Definition shMid_of (lm : list Landmark) : Landmark :=
  let Lsh := landmark lm 11 in
  let Rsh := landmark lm 12 in
  mkLandmark ((x Lsh + x Rsh) / 2) ((y Lsh + y Rsh) / 2) None.

(** The guide box test on the two shoulders and the resolved hip. *)
Definition inside (W H : float) (lm : list Landmark) : bool :=
  let gx := W * GUIDE_MARGIN in
  let gy := H * GUIDE_MARGIN in
  let gW := W * (1 - GUIDE_MARGIN * 2) in
  let gH := H * (1 - GUIDE_MARGIN * 2) in
  forallb (fun p => (gx <=? x p * W) && (x p * W <=? gx + gW)
                    && (gy <=? y p * H) && (y p * H <=? gy + gH))
          [landmark lm 11; landmark lm 12; hip_of lm].

(** The maximum absolute deviation from the mean of the window. *)
Definition maxDev_of (bufN : list float) : float :=
  let avg := JS.sum bufN / JS.of_nat (List.length bufN) in
  JS.Math_max (map (fun v => JS.Math_abs (v - avg)) bufN).

Definition spread_of (chestBuf : list float) : float :=
  if (8 <=? List.length chestBuf)%nat
  then JS.Math_max chestBuf - JS.Math_min chestBuf
  else 999.

(** The three instantaneous values of one frame. *)
Definition shoulderPx_of (W : float) (lm : list Landmark) : float :=
  JS.Math_abs ((x (landmark lm 11) - x (landmark lm 12)) * W).

Definition shoulderCm_of (W : float) (lm : list Landmark) (cmPerPx : float) : float :=
  shoulderPx_of W lm * cmPerPx.

Definition upperWaistCm_of (W : float) (lm : list Landmark) (cmPerPx : float)
  : option float :=
  if vis lm 23 && vis lm 24 then
    let hipFlatCm :=
      JS.Math_abs ((x (landmark lm 23) - x (landmark lm 24)) * W) * cmPerPx in
    Some (hipFlatCm * UPPER_WAIST_FACTOR)
  else None.

(** The part of the callback that runs once every guard has passed: the
    windows are pushed and the lock is decided. *)
Definition measureFrame (W : float) (lm : list Landmark) (cmPerPx : float)
                        (s : Session) : Session :=
  let shoulderWidthN := getDistance (landmark lm 11) (landmark lm 12) in
  let bufN := push_shift STABILITY_FRAMES (recentShoulderN s) shoulderWidthN in
  let maxDev := maxDev_of bufN in
  let shoulderCm := shoulderCm_of W lm cmPerPx in
  let chestCmInstant := shoulderCm * CHEST_MULTIPLIER in
  let upperWaistCmInstant := upperWaistCm_of W lm cmPerPx in
  let '(chestBuf', chestMed) := pushMed (chestBuf s) (Some chestCmInstant) 15 in
  let '(shoulderBuf', shoulderMed) := pushMed (shoulderBuf s) (Some shoulderCm) 15 in
  let '(waistBuf', waistMed) := pushMed (waistBuf s) upperWaistCmInstant 15 in
  let spread := spread_of chestBuf' in
  let stable := (STABILITY_FRAMES <=? List.length bufN)%nat
                && (maxDev <? MOVEMENT_EPS) && (spread <? 1.8) in
  if stable && JS.truthy_opt chestMed && JS.truthy_opt shoulderMed then
    let out :=
      {| chestCm := JS.Number_toFixed 1 (JS.ToNumber chestMed);
         shoulderCm := JS.Number_toFixed 1 (JS.ToNumber shoulderMed);
         upperWaistCm :=
           if JS.truthy_opt waistMed
           then Some (JS.Number_toFixed 1 (JS.ToNumber waistMed)) else None;
         quality := {| frames := List.length chestBuf';
                       spreadCm := JS.Number_toFixed 2 spread |} |} in
    {| phase := phase_locked; status := "Locked ✔️"; barPx := barPx s;
       cmPerPx := Measure.cmPerPx s; locked := true; meas := Some out;
       recentShoulderN := bufN; chestBuf := chestBuf';
       shoulderBuf := shoulderBuf'; waistBuf := waistBuf' |}
  else
    {| phase := phase s; status := "Hold still…"; barPx := barPx s;
       cmPerPx := Measure.cmPerPx s; locked := locked s; meas := meas s;
       recentShoulderN := bufN; chestBuf := chestBuf';
       shoulderBuf := shoulderBuf'; waistBuf := waistBuf' |}.

(** [pose.onResults((res) => ...)]; the drawing on the canvas is left out. *)
Definition onResults (res : Results) (s : Session) : Session :=
  if locked s then s
  else
    let W := image_width res in
    let H := image_height res in
    match poseLandmarks res with
    | None => setStatus "Detecting body…" s
    | Some lm =>
        if negb (shouldersOK lm && hipsOK lm)
        then setStatus "Show shoulders & upper torso." s
        else if negb (inside W H lm)
        then setStatus "Step back/center inside the frame." s
        else if Phase_eqb (phase s) phase_calibrate
        then setStatus "Adjust bar → Set calibration." s
        else if JS.not (cmPerPx s)
        then setStatus "Click Set calibration first." s
        else
          let torsoHeightN := getDistance (shMid_of lm) (hip_of lm) in
          if torsoHeightN <=? 0
          then setStatus "Hold still…" s
          else measureFrame W lm (JS.ToNumber (cmPerPx s)) s
    end.

(** *** The operator controls *)

Definition setCalibration (s : Session) : Session :=
  if barPx s <? 40 then s
  else
    {| phase := phase_measure;
       status := "Calibration set. Stand centered; shoulders & upper torso visible.";
       barPx := barPx s;
       cmPerPx := Some (A4_WIDTH_CM / barPx s);
       locked := locked s; meas := meas s;
       recentShoulderN := []; chestBuf := []; shoulderBuf := []; waistBuf := [] |}.

Definition retake (s : Session) : Session :=
  {| phase := phase_measure;
     status := "Stand centered; hold still 1–2 seconds.";
     barPx := barPx s; cmPerPx := cmPerPx s;
     locked := false; meas := None;
     recentShoulderN := []; chestBuf := []; shoulderBuf := []; waistBuf := [] |}.

Definition recalibrate (s : Session) : Session :=
  {| phase := phase_calibrate;
     status := "Hold an A4 sheet at chest level and match the bar width.";
     barPx := barPx s; cmPerPx := cmPerPx s;
     locked := false; meas := None;
     recentShoulderN := []; chestBuf := []; shoulderBuf := []; waistBuf := [] |}.

(** The [catch] branch of the effect that creates the pose estimator and
    starts the camera: when that fails with [error.message = message], the
    status reports it and the phase becomes ["error"]; nothing else is
    touched. *)
Definition effectError (message : string) (s : Session) : Session :=
  {| phase := phase_error;
     status := String.append "MediaPipe Error: "
                 (String.append message ". Please refresh the page.");
     barPx := barPx s; cmPerPx := cmPerPx s;
     locked := locked s; meas := meas s;
     recentShoulderN := recentShoulderN s; chestBuf := chestBuf s;
     shoulderBuf := shoulderBuf s; waistBuf := waistBuf s |}.

(** *** Sessions as runs of events *)

Inductive Event : Type :=
  | SetBarPx (v : float)
  | SetCalibration
  | Retake
  | Recalibrate
  | Frame (res : Results)
  | EffectError (message : string).

Definition step (s : Session) (ev : Event) : Session :=
  match ev with
  | SetBarPx v => setBarPx v s
  | SetCalibration => setCalibration s
  | Retake => retake s
  | Recalibrate => recalibrate s
  | Frame res => onResults res s
  | EffectError message => effectError message s
  end.

(** What the page offers: the slider (a range input from 120 to 900) and the
    calibration button while calibrating, the retake and recalibrate buttons
    on the result panel ([phase === "locked" && meas]); frames arrive at any
    time, and so may the failure of the effect, which runs when the page is
    mounted and again after every change of [phase], [cmPerPx], [locked] or
    [barPx]. *)
Definition offered (s : Session) (ev : Event) : bool :=
  match ev with
  | SetBarPx v =>
      Phase_eqb (phase s) phase_calibrate && (120 <=? v) && (v <=? 900)
  | SetCalibration => Phase_eqb (phase s) phase_calibrate
  | Retake | Recalibrate =>
      Phase_eqb (phase s) phase_locked
      && match meas s with Some _ => true | None => false end
  | Frame _ => true
  | EffectError _ => true
  end.

Definition run (evs : list Event) (s : Session) : Session := fold_left step evs s.

Fixpoint all_offered (evs : list Event) (s : Session) : bool :=
  match evs with
  | [] => true
  | ev :: evs' => offered s ev && all_offered evs' (step s ev)
  end.

Inductive reachable : Session -> Prop :=
  | reachable_initial : reachable initial
  | reachable_step s ev :
      reachable s -> offered s ev = true -> reachable (step s ev).

(** The classifier as the result panel calls it on the locked measurement. *)
Definition recommended (m : Meas) : option SizeLabel :=
  Frontend.recommendTopSize (Some (chestCm m)) (upperWaistCm m) (Some (shoulderCm m)).

End Measure.

Import Measure.

(** ** Vocabulary of the properties *)

(** The four sliding windows of a session. *)
Definition windows (s : Session) : list float * list float * list float * list float :=
  (recentShoulderN s, chestBuf s, shoulderBuf s, waistBuf s).

(** An input of a classifier that is missing, zero or negative. *)
Definition missing_or_nonpos (v : option float) : bool :=
  match v with
  | None => true
  | Some a => a <=? 0
  end.

(** The landmark gate fails: no landmarks at all, a shoulder that is absent or
    not above the visibility threshold, or both hips so. *)
Definition gate_fails (res : Results) : bool :=
  match poseLandmarks res with
  | None => true
  | Some lm => negb (vis lm 11) || negb (vis lm 12) || (negb (vis lm 23) && negb (vis lm 24))
  end.

Definition rejection_status (res : Results) : string :=
  match poseLandmarks res with
  | None => "Detecting body…"
  | Some _ => "Show shoulders & upper torso."
  end.

(** A frame is accepted by a session when it passes every guard of the
    callback, so that its samples are pushed into the windows. *)
Definition accepts (s : Session) (res : Results) : bool :=
  negb (locked s)
  && match poseLandmarks res with
     | None => false
     | Some lm =>
         shouldersOK lm && hipsOK lm
         && inside (image_width res) (image_height res) lm
         && negb (Phase_eqb (phase s) phase_calibrate)
         && JS.truthy_opt (cmPerPx s)
         && negb (getDistance (shMid_of lm) (hip_of lm) <=? 0)
     end.

(** Both hips of the frame are above the visibility threshold. *)
Definition both_hips (res : Results) : bool :=
  match poseLandmarks res with
  | None => false
  | Some lm => vis lm 23 && vis lm 24
  end.

Definition is_frame (ev : Event) : bool :=
  match ev with
  | Frame _ => true
  | _ => false
  end.


(** The order of numbers, and the median in the words of the specification:
    the middle element of a sorted arrangement of the window when its length
    is odd, the average of the two middle elements when it is even. *)
Definition fle (a b : float) : Prop := (a <=? b) = true.

Definition middle (s : list float) : float :=
  if Nat.odd (List.length s) then nth (List.length s / 2) s nan
  else (nth (List.length s / 2 - 1) s nan + nth (List.length s / 2) s nan) / 2.

Definition is_median (w : list float) (r : float) : Prop :=
  exists s, Permutation s w /\ StronglySorted fle s /\ r = middle s.

Definition no_nan (l : list float) : Prop := Forall (fun a => is_nan a = false) l.

(** The stability detector on a window: full, and within the tolerance. *)
Definition stable_window (bufN : list float) : Prop :=
  List.length bufN = STABILITY_FRAMES /\ (maxDev_of bufN <? MOVEMENT_EPS) = true.

(** The chest window has converged: at least 8 samples, and a range
    (max - min) below 1.8 cm. *)
Definition chest_converged (chest : list float) : Prop :=
  (8 <= List.length chest)%nat
  /\ (JS.Math_max chest - JS.Math_min chest <? 1.8) = true.

(** The record that the lock stores for given windows; [hips] tells whether
    the locking frame shows both hips. *)
Definition locked_record (chest shoulder waist : list float) (hips : bool) : Meas :=
  {| chestCm := JS.Number_toFixed 1 (median_of chest);
     shoulderCm := JS.Number_toFixed 1 (median_of shoulder);
     upperWaistCm :=
       if hips && JS.truthy (median_of waist)
       then Some (JS.Number_toFixed 1 (median_of waist)) else None;
     quality := {| frames := List.length chest;
                   spreadCm := JS.Number_toFixed 2 (spread_of chest) |} |}.

(** ** Sample frames *)

Definition blank : Landmark := mkLandmark 0 0 (Some 0).

(** A 33-landmark pose with the given shoulders (11, 12) and hips (23, 24). *)
Definition pose (Lsh Rsh Lhip Rhip : Landmark) : list Landmark :=
  repeat blank 11 ++ [Lsh; Rsh] ++ repeat blank 10 ++ [Lhip; Rhip] ++ repeat blank 8.

(** A 1280x720 frame: shoulders 400 px apart, the left hip visible, the right
    hip not. *)
Definition pose_one_hip : list Landmark :=
  pose (mkLandmark 0.65625 0.3 (Some 0.9)) (mkLandmark 0.34375 0.3 (Some 0.9))
       (mkLandmark 0.5 0.7 (Some 0.9)) (mkLandmark 0.4 0.7 (Some 0.2)).

Definition frame_one_hip : Results := mkResults 1280 720 (Some pose_one_hip).

(** The same with both hips visible. *)
Definition frame_both_hips : Results :=
  mkResults 1280 720
    (Some (pose (mkLandmark 0.65625 0.3 (Some 0.9)) (mkLandmark 0.34375 0.3 (Some 0.9))
                (mkLandmark 0.625 0.7 (Some 0.9)) (mkLandmark 0.375 0.7 (Some 0.9)))).

(** Both hips visible at the same abscissa: the flat hip width is 0. *)
Definition frame_hips_aligned : Results :=
  mkResults 1280 720
    (Some (pose (mkLandmark 0.65625 0.3 (Some 0.9)) (mkLandmark 0.34375 0.3 (Some 0.9))
                (mkLandmark 0.5 0.7 (Some 0.9)) (mkLandmark 0.5 0.7 (Some 0.9)))).

(** A subject seen from the side: both shoulders at the same abscissa. *)
Definition frame_sideways : Results :=
  mkResults 1280 720
    (Some (pose (mkLandmark 0.5 0.3 (Some 0.9)) (mkLandmark 0.5 0.35 (Some 0.9))
                (mkLandmark 0.5 0.7 (Some 0.9)) (mkLandmark 0.5 0.7 (Some 0.2)))).

(** A frame whose right shoulder is below the visibility threshold. *)
Definition frame_no_shoulder : Results :=
  mkResults 1280 720
    (Some (pose (mkLandmark 0.65625 0.3 (Some 0.9)) (mkLandmark 0.34375 0.3 (Some 0.3))
                (mkLandmark 0.5 0.7 (Some 0.9)) (mkLandmark 0.4 0.7 (Some 0.9)))).

(** A session calibrated with the default 300 px bar. *)
Definition calibrated : Session := setCalibration initial.

(** The sessions after eleven identical frames, one frame before the
    stability window is full. *)
Definition warm_one_hip : Session := run (repeat (Frame frame_one_hip) 11) calibrated.
Definition warm_sideways : Session := run (repeat (Frame frame_sideways) 11) calibrated.

(** The test of the callback that decides the lock, on the windows as they
    are after the pushes of the frame. *)
Definition lock_test (bufN chest shoulder : list float) : bool :=
  (STABILITY_FRAMES <=? List.length bufN)%nat
  && (maxDev_of bufN <? MOVEMENT_EPS) && (spread_of chest <? 1.8)
  && JS.truthy (median_of chest) && JS.truthy (median_of shoulder).

(** What holds of every state that the page can reach. *)
Definition session_inv (s : Session) : Prop :=
  match phase s with
  | phase_calibrate => locked s = false /\ meas s = None
  | phase_measure => locked s = false /\ meas s = None /\ cmPerPx s <> None
  | phase_locked => locked s = true /\ meas s <> None /\ cmPerPx s <> None
  | phase_error =>
      (locked s = true /\ meas s <> None) \/ (locked s = false /\ meas s = None)
  end
  /\ (List.length (recentShoulderN s) <= STABILITY_FRAMES)%nat
  /\ (List.length (chestBuf s) <= 15)%nat
  /\ (List.length (shoulderBuf s) <= 15)%nat
  /\ (List.length (waistBuf s) <= 15)%nat.

(** Closes the goals of a step that leaves the fields as they are. *)
Ltac unchanged := repeat split; simpl; first [assumption | reflexivity].

(** ** The rest of the pipeline: overlay, hand-over to the recommendations *)

(** A JavaScript value that may be [undefined] or [null]; the two differ for
    default parameters and for JSON. *)
Inductive jsval (A : Type) : Type :=
  | js_undefined
  | js_null
  | js_val (a : A).

Arguments js_undefined {A}.
Arguments js_null {A}.
Arguments js_val {A} a.

(** The strings of the size labels. *)
Definition label_string (l : SizeLabel) : string :=
  match l with
  | sz_XXS => "XXS" | sz_XS => "XS" | sz_S => "S" | sz_M => "M" | sz_L => "L"
  | sz_XL => "XL" | sz_XXL => "XXL" | sz_3XL => "3XL" | sz_4XL => "4XL"
  end.

(** *** The skeleton overlay of [Measure.jsx] *)

Module Overlay.

Definition UPPER : list (nat * nat) :=
  [(0, 1); (1, 2); (2, 3); (3, 7); (0, 11); (0, 12); (11, 13); (13, 15);
   (12, 14); (14, 16); (11, 12); (11, 23); (12, 24)]%nat.

Definition LOWER : list (nat * nat) :=
  [(23, 25); (25, 27); (27, 31); (24, 26); (26, 28); (28, 32); (23, 24)]%nat.

(** One stroke on the canvas: [moveTo (x1, y1)], [lineTo (x2, y2)]. *)
Record Segment : Type := mkSegment {
  x1 : float; y1 : float; x2 : float; y2 : float;
  strokeStyle : string;
  lineWidth : float
}.

(** [p.visibility ?? 0] *)
Definition visibility_or_0 (p : Landmark) : float :=
  match visibility p with Some v => v | None => 0 end.

(** [drawSeg(ctx, lm, a, b, color, width, W, H)]: the stroke that it draws,
    if any. *)
Definition drawSeg (lm : list Landmark) (a b : nat) (color : string) (width W H : float)
  : option Segment :=
  match nth_error lm a, nth_error lm b with
  | Some A, Some B =>
      if (visibility_or_0 A <? 0.4) || (visibility_or_0 B <? 0.4) then None
      else Some (mkSegment (x A * W) (y A * H) (x B * W) (y B * H) color width)
  | _, _ => None
  end.

(** The strokes of [UPPER.forEach(...)] followed by [LOWER.forEach(...)]. *)
Definition drawSkeleton (lm : list Landmark) (W H : float) : list Segment :=
  flat_map (fun ab => match drawSeg lm (fst ab) (snd ab) "#3B82F6" 4 W H with
                      | Some sg => [sg] | None => [] end) UPPER
  ++ flat_map (fun ab => match drawSeg lm (fst ab) (snd ab) "#F59E0B" 4 W H with
                         | Some sg => [sg] | None => [] end) LOWER.

End Overlay.

(** *** The "Get Recommendations" button of [Measure.jsx] *)

Module Handover.

(** The object that the button serialises into the URL. *)
Record Payload : Type := mkPayload {
  size : string;
  gender : string;
  measurements : float * float * option float
}.

(** The click handler: the payload of the navigation, or nothing when the
    classifier gives no size. *)
Definition onGetRecommendations (m : Meas) : option Payload :=
  match recommended m with
  | Some l => Some (mkPayload (label_string l) "Men"
                              (chestCm m, shoulderCm m, upperWaistCm m))
  | None => None
  end.

End Handover.

(** *** [services/api.js] *)

Module ApiService.

Definition validSizes : list string := ["L"%string; "XL"%string].

(** [validSizes.includes(size)] *)
Definition includes (l : list string) (v : jsval string) : bool :=
  match v with
  | js_val z => existsb (String.eqb z) l
  | _ => false
  end.

(** ToBoolean of a string that may be missing. *)
Definition truthy_string (v : jsval string) : bool :=
  match v with
  | js_val z => negb (String.eqb z "")
  | _ => false
  end.

(** The object handed to [JSON.stringify]. *)
Record Body : Type := mkBody {
  size : jsval string;
  gender : jsval string;
  max_recommendations : jsval float
}.

(** A default parameter replaces [undefined] only. *)
Definition default {A : Type} (d : A) (v : jsval A) : jsval A :=
  match v with
  | js_undefined => js_val d
  | _ => v
  end.

(** [getRecommendations(size, gender = 'Men', maxRecommendations = 10)]: the
    body of the POST. *)
Definition getRecommendations (size gender : jsval string) (maxRecommendations : jsval float)
  : Body :=
  let size := if includes validSizes size then size else js_val "L"%string in
  mkBody size (default "Men"%string gender) (default 10 maxRecommendations).

(** [searchProducts(query, size = null, maxResults = 20)]: the size of the
    body. *)
Definition searchProducts_size (size : jsval string) : jsval string :=
  let size := match size with js_undefined => js_null | _ => size end in
  if truthy_string size
  then (if includes validSizes size then size else js_val "L"%string)
  else size.

End ApiService.

(** *** JSON values, as [express.json()] parses them *)

#[warnings="-register-all"]
Inductive json : Type :=
  | j_null
  | j_bool (b : bool)
  | j_number (a : float)
  | j_string (z : string)
  | j_array (items : list json)
  | j_object (fields : list (string * json)).

Module Json.

(** ToBoolean of a value read from a parsed body; [None] is [undefined]. *)
Definition truthy (v : option json) : bool :=
  match v with
  | None => false
  | Some j_null => false
  | Some (j_bool b) => b
  | Some (j_number a) => JS.truthy a
  | Some (j_string z) => negb (String.eqb z "")
  | Some (j_array _) => true
  | Some (j_object _) => true
  end.

(** [v || d] with a default that is a JSON value. *)
Definition or (v : option json) (d : json) : json :=
  match v with
  | Some j => if truthy v then j else d
  | None => d
  end.

(** The member of a parsed object under a key; of two members with one key
    [JSON.parse] keeps the later one. *)
Fixpoint member (key : string) (fields : list (string * json)) : option json :=
  match fields with
  | [] => None
  | (k, v) :: rest =>
      match member key rest with
      | Some w => Some w
      | None => if String.eqb k key then Some v else None
      end
  end.

(** Reading one of the names [size], [gender], [max_recommendations] off a
    value that is not [null]: an object answers with its member, an array, a
    string, a number or a boolean has no property of these names. *)
Definition property (key : string) (body : json) : option json :=
  match body with
  | j_object fields => member key fields
  | _ => None
  end.

(** What [JSON.stringify] makes of a number: a number that is not finite
    becomes [null], and [-0] becomes [0]. *)
Definition of_number (a : float) : json :=
  if is_finite a then (if is_zero a then j_number 0 else j_number a) else j_null.

(** [JSON.stringify] leaves a property that is [undefined] out. *)
Definition field {A : Type} (key : string) (to_json : A -> json) (v : jsval A)
  : list (string * json) :=
  match v with
  | js_undefined => []
  | js_null => [(key, j_null)]
  | js_val a => [(key, to_json a)]
  end.

End Json.

(** *** The routes of [backend/routes/ml.js] *)

Module Routes.

(** The object posted to the recommendation service. *)
Record RequestData : Type := mkRequestData {
  size : json;
  gender : json;
  max_recommendations : json;
  include_images_only : bool
}.

(** What a route does with a request: answer 400 with an error, answer 500
    from its [catch], or post [requestData] to the recommendation service
    (whose answer, or a 500 when it fails, is relayed). *)
Inductive Outcome : Type :=
  | BadRequest (error : string)
  | ServerError (error : string)
  | Forward (requestData : RequestData).

(** The body of the request of [ApiService.getRecommendations], stringified
    by the client and parsed by [express.json()]. *)
Definition received (b : ApiService.Body) : option json :=
  Some (j_object (Json.field "size" j_string (ApiService.size b)
                  ++ Json.field "gender" j_string (ApiService.gender b)
                  ++ Json.field "max_recommendations" Json.of_number
                       (ApiService.max_recommendations b))).

(** [router.post('/recommendations/upper-body', ...)] on [req.body], which
    is [undefined] ([None]) when no body was parsed; destructuring
    [undefined] or [null] throws, and the [catch] answers 500. *)
Definition upper_body (body : option json) : Outcome :=
  match body with
  | None => ServerError "Failed to get recommendations"
  | Some j_null => ServerError "Failed to get recommendations"
  | Some b =>
      let size := Json.property "size" b in
      let gender := Json.property "gender" b in
      let max_recommendations := Json.property "max_recommendations" b in
      match size with
      | Some z =>
          if negb (Json.truthy size) then BadRequest "Size parameter is required"
          else
            Forward
              {| size := z;
                 gender := Json.or gender (j_string "Men");
                 max_recommendations := Json.or max_recommendations (j_number 10);
                 include_images_only := true |}
      | None => BadRequest "Size parameter is required"
      end
  end.


End Routes.

(** *** The recommendations page *)

Module Recommendations.

(** The call of [loadMeasurementDataAndRecommendations] on the object read
    from the URL: [ApiService.getRecommendations(data.size, data.gender, 20)]. *)
Definition request (size gender : jsval string) : ApiService.Body :=
  ApiService.getRecommendations size gender (js_val 20).

Definition placeholder : string := "/placeholder-clothing.svg".

(** [getImageUrl(imagePath)] *)
Definition getImageUrl (imagePath : jsval string) : string :=
  match imagePath with
  | js_val path =>
      if String.eqb path "" then placeholder
      else if String.prefix "data/images/" path
      then String.append "http://localhost:5001/" path
      else path
  | _ => placeholder
  end.

(** [getConfidenceColor(score)] and [getConfidenceText(score)]; a missing
    score compares as [NaN] or [0] and falls through both tests. *)
Definition getConfidenceColor (score : option float) : string :=
  match score with
  | Some a => if 0.8 <=? a then "text-green-600"
              else if 0.6 <=? a then "text-yellow-600" else "text-red-600"
  | None => "text-red-600"
  end.

Definition getConfidenceText (score : option float) : string :=
  match score with
  | Some a => if 0.8 <=? a then "High" else if 0.6 <=? a then "Medium" else "Low"
  | None => "Low"
  end.

End Recommendations.

(** ** More vocabulary *)

(** A measure that is a positive number. *)
Definition positive (v : option float) : bool :=
  match v with
  | Some a => 0 <? a
  | None => false
  end.

(** The relations between the windows and the fields that every state the
    page can reach keeps, beyond [session_inv]. *)
Definition windows_inv (s : Session) : Prop :=
  List.length (shoulderBuf s) = List.length (chestBuf s)
  /\ List.length (recentShoulderN s) = Nat.min STABILITY_FRAMES (List.length (chestBuf s))
  /\ (List.length (waistBuf s) <= List.length (chestBuf s))%nat
  /\ (phase s = phase_calibrate -> windows s = ([], [], [], []))
  /\ (phase s = phase_locked ->
      lock_test (recentShoulderN s) (chestBuf s) (shoulderBuf s) = true
      /\ exists hips, meas s = Some (locked_record (chestBuf s) (shoulderBuf s)
                                                   (waistBuf s) hips))
  /\ (status s = "Locked ✔️"%string <-> phase s = phase_locked).

(** The messages that the callback shows for a frame it does not use. *)
Definition rejection_messages : list string :=
  ["Detecting body…"%string; "Show shoulders & upper torso."%string;
   "Step back/center inside the frame."%string; "Adjust bar → Set calibration."%string;
   "Click Set calibration first."%string; "Hold still…"%string].

(** The session after the twelfth still frame: locked. *)
Definition locked_one_hip : Session := onResults frame_one_hip warm_one_hip.

(** ** The order of binary64 numbers *)

Module FloatOrder.

Lemma SFcompare_antisym f g :
  SFcompare g f = option_map CompOpp (SFcompare f g).
Proof.
  destruct f as [s| s| |s m e], g as [s'| s'| |s' m' e']; simpl; try reflexivity;
    try (destruct s; reflexivity); try (destruct s'; reflexivity);
    try (destruct s, s'; reflexivity).
  destruct s, s'; simpl; try reflexivity;
    rewrite (Z.compare_antisym e e'); destruct (e ?= e')%Z; simpl; try reflexivity;
    change (Pos.compare_cont Eq m' m) with (Pos.compare m' m);
    change (Pos.compare_cont Eq m m') with (Pos.compare m m');
    rewrite (Pos.compare_antisym m m'); destruct (m ?= m')%positive; reflexivity.
Qed.

Lemma comparable a b :
  is_nan a = false -> is_nan b = false ->
  exists c, SFcompare (Prim2SF a) (Prim2SF b) = Some c.
Proof.
  unfold is_nan. rewrite !FloatAxioms.eqb_spec. unfold SFeqb.
  destruct (Prim2SF a) as [s| s| |s m e], (Prim2SF b) as [s'| s'| |s' m' e'];
    simpl; intros Ha Hb; try discriminate; eauto.
Qed.

(** Two numbers are always ordered one way or the other. *)
Lemma ltb_false_leb a b :
  is_nan a = false -> is_nan b = false -> (b <? a) = false -> (a <=? b) = true.
Proof.
  intros Ha Hb. rewrite ltb_spec, leb_spec. unfold SFltb, SFleb.
  rewrite (SFcompare_antisym (Prim2SF a) (Prim2SF b)).
  destruct (comparable a b Ha Hb) as [c ->]. destruct c; simpl; congruence.
Qed.

Lemma ltb_leb a b : (a <? b) = true -> (a <=? b) = true.
Proof.
  rewrite ltb_spec, leb_spec. unfold SFltb, SFleb.
  destruct (SFcompare _ _) as [[]|]; congruence.
Qed.

Lemma SFleb_trans f g h :
  SFleb f g = true -> SFleb g h = true -> SFleb f h = true.
Proof.
  unfold SFleb.
  destruct f as [s| s| |s m e], g as [s'| s'| |s' m' e'], h as [s''| s''| |s'' m'' e''];
    simpl; try discriminate; try reflexivity;
    repeat match goal with b : bool |- _ => destruct b end; simpl;
    try discriminate; try reflexivity;
    change (Pos.compare_cont Eq ?p ?q) with (Pos.compare p q);
    destruct (Z.compare_spec e e'), (Z.compare_spec e' e''), (Z.compare_spec e e'');
    try discriminate; try reflexivity; try lia; subst;
    destruct (Pos.compare_spec m m'), (Pos.compare_spec m' m''), (Pos.compare_spec m m'');
    simpl; try discriminate; try reflexivity; try lia.
Qed.

Lemma leb_trans a b c : (a <=? b) = true -> (b <=? c) = true -> (a <=? c) = true.
Proof. rewrite !leb_spec. apply SFleb_trans. Qed.

Lemma leb_ltb_false a b : (a <=? b) = true -> (b <? a) = false.
Proof.
  rewrite ltb_spec, leb_spec. unfold SFltb, SFleb.
  rewrite (SFcompare_antisym (Prim2SF a) (Prim2SF b)).
  destruct (SFcompare _ _) as [[]|]; simpl; congruence.
Qed.

End FloatOrder.

(** ** Sanity checks of the number helpers *)

Example Number_toFixed_examples :
  JS.Number_toFixed 1 0.25 = 0.3
  /\ JS.Number_toFixed 1 0.35 = 0.3
  /\ JS.Number_toFixed 2 1.005 = 1
  /\ JS.Number_toFixed 1 (-0.04) = neg_zero
  /\ JS.Number_toFixed 1 49.000000000000007 = 49
  /\ JS.Number_toFixed 2 1e21 = 1e21.
Proof. repeat split; reflexivity. Qed.

Example Math_max_min_examples :
  JS.Math_max [1; 3; 2] = 3 /\ JS.Math_min [1; 3; 2] = 1
  /\ JS.Math_max [] = neg_infinity /\ JS.Math_min [] = infinity
  /\ JS.Math_max [neg_zero; 0] = 0 /\ JS.Math_min [0; neg_zero] = neg_zero.
Proof. repeat split; reflexivity. Qed.

(** [Math.hypot] scales before it squares: tiny and huge arguments neither
    underflow nor overflow as [sqrt (x*x + y*y)] does, and the result can
    differ from it in the last place. *)
Example Math_hypot_examples :
  JS.Math_hypot 3 4 = 5
  /\ JS.Math_hypot 0.3125 0 = 0.3125
  /\ JS.Math_hypot neg_zero 0 = 0
  /\ JS.Math_hypot nan infinity = infinity
  /\ JS.Math_hypot nan 1 = nan
  /\ (JS.Math_hypot 1e-170 1e-170 = 1.4142135623730951e-170
      /\ sqrt (1e-170 * 1e-170 + 1e-170 * 1e-170) = 0)
  /\ (JS.Math_hypot 1e200 1e200 = 1.414213562373095e+200
      /\ sqrt (1e200 * 1e200 + 1e200 * 1e200) = infinity)
  /\ (JS.Math_hypot 0.2 0.7 = 0.72801098892805183
      /\ sqrt (0.2 * 0.2 + 0.7 * 0.7) = 0.72801098892805172).
Proof. repeat split; vm_compute; reflexivity. Qed.

Example sort_example : sort [3; 1; 2; 1.5] = [1; 1.5; 2; 3].
Proof. reflexivity. Qed.

(** A window at capacity drops its oldest sample. *)
Example push_shift_fifo :
  push_shift 3 [1; 2] 3 = [1; 2; 3] /\ push_shift 3 [1; 2; 3] 4 = [2; 3; 4].
Proof. split; reflexivity. Qed.

(** Where [vis] holds the landmark exists: the callback never reads a
    landmark that the pose does not have. *)
Lemma vis_defined (lm : list Landmark) (i : nat) :
  vis lm i = true -> exists p, nth_error lm i = Some p /\ landmark lm i = p.
Proof.
  unfold vis, landmark. intros H.
  destruct (nth_error lm i) as [p|] eqn:E; [|discriminate].
  exists p. split; [reflexivity|]. apply nth_error_nth, E.
Qed.

(** ** The size classifiers *)

Lemma not_of_nonpos (v : option float) :
  missing_or_nonpos v = true -> JS.not v || (JS.ToNumber v <=? 0) = true.
Proof.
  destruct v as [a|]; simpl; intros H.
  - rewrite H. apply orb_true_r.
  - reflexivity.
Qed.

(** The guard shared by the two classifiers fires as soon as one of the three
    inputs is missing, zero or negative. *)
Lemma guard_fires (c w sh : option float) :
  missing_or_nonpos c || missing_or_nonpos w || missing_or_nonpos sh = true ->
  JS.not c || JS.not w || JS.not sh
  || (JS.ToNumber c <=? 0) || (JS.ToNumber w <=? 0) || (JS.ToNumber sh <=? 0) = true.
Proof.
  intros H.
  apply orb_true_iff in H as [H|H]; [apply orb_true_iff in H as [H|H]|];
    apply not_of_nonpos in H; apply orb_true_iff in H as [H|H]; rewrite H;
    repeat (rewrite ?orb_true_r, ?orb_true_l); reflexivity.
Qed.

Lemma recommendTopSize_absent (c w sh : option float) :
  missing_or_nonpos c || missing_or_nonpos w || missing_or_nonpos sh = true ->
  Frontend.recommendTopSize c w sh = None.
Proof.
  intros H. apply guard_fires in H.
  unfold Frontend.recommendTopSize. rewrite H. reflexivity.
Qed.

Lemma estimateSize_fallback (m : Backend.Measurements) :
  missing_or_nonpos (Backend.chestCm m)
  || missing_or_nonpos (JS.or (Backend.upperWaistCm m) (Backend.waistCm m))
  || missing_or_nonpos (Backend.shoulderCm m) = true ->
  Backend.estimateSizeFromMeasurements m = sz_M.
Proof.
  intros H. apply guard_fires in H.
  unfold Backend.estimateSizeFromMeasurements. cbv zeta. rewrite H. reflexivity.
Qed.

(** C2 (as stated, refuted): with a chest of 0 the backend classifier
    returns the label ['M'], not an absent result; so it does when every
    measurement is missing. *)
Lemma backend_returns_M_on_missing_input :
  missing_or_nonpos (Some 0) = true
  /\ Backend.estimateSizeFromMeasurements
       (Backend.mkMeasurements (Some 0) (Some 80) None (Some 45)) = sz_M
  /\ Backend.estimateSizeFromMeasurements
       (Backend.mkMeasurements None None None None) = sz_M.
Proof. repeat split; reflexivity. Qed.

(** C2 (amended): when one of chest, waist and shoulder is missing, zero or
    negative, the two-size classifier [recommendTopSize] returns no label,
    and the backend classifier [estimateSizeFromMeasurements], whose waist is
    [upperWaistCm || waistCm], returns its fallback label ['M']. *)
Theorem classifiers_on_missing_input (c w sh : option float) :
  missing_or_nonpos c || missing_or_nonpos w || missing_or_nonpos sh = true ->
  Frontend.recommendTopSize c w sh = None
  /\ forall m : Backend.Measurements,
       Backend.chestCm m = c ->
       JS.or (Backend.upperWaistCm m) (Backend.waistCm m) = w ->
       Backend.shoulderCm m = sh ->
       Backend.estimateSizeFromMeasurements m = sz_M.
Proof.
  intros H. split.
  - apply recommendTopSize_absent, H.
  - intros m Hc Hw Hs. apply estimateSize_fallback. rewrite Hc, Hw, Hs. exact H.
Qed.

Lemma classifiers_on_missing_input_witness :
  Frontend.recommendTopSize (Some 95) None (Some 45) = None
  /\ Backend.estimateSizeFromMeasurements
       (Backend.mkMeasurements (Some 95) (Some 0) None (Some 45)) = sz_M.
Proof.
  destruct (classifiers_on_missing_input (Some 95) None (Some 45) eq_refl) as [Hf Hb].
  split.
  - exact Hf.
  - apply Hb; reflexivity.
Defined.

(** C4: the two-size classifier is a function of its three arguments alone
    (the result panel gets the same label for the same measurement triple,
    whatever the rest of the record); it returns no label when the chest is
    zero or negative; chest 105, shoulder 50, waist 90 give ['XL']; chest 85,
    shoulder 40, waist 72 give ['L']. *)
Theorem recommendTopSize_deterministic_examples :
  (forall m m' : Meas,
     chestCm m = chestCm m' -> upperWaistCm m = upperWaistCm m' ->
     shoulderCm m = shoulderCm m' -> recommended m = recommended m')
  /\ (forall (c : float) (w sh : option float),
        (c <=? 0) = true -> Frontend.recommendTopSize (Some c) w sh = None)
  /\ Frontend.recommendTopSize (Some 0) (Some 90) (Some 50) = None
  /\ Frontend.recommendTopSize (Some (-3)) (Some 90) (Some 50) = None
  /\ Frontend.recommendTopSize (Some 105) (Some 90) (Some 50) = Some sz_XL
  /\ Frontend.recommendTopSize (Some 85) (Some 72) (Some 40) = Some sz_L.
Proof.
  split; [|split; [|repeat split; reflexivity]].
  - intros m m' Hc Hw Hs. unfold recommended. rewrite Hc, Hw, Hs. reflexivity.
  - intros c w sh H.
    apply recommendTopSize_absent. simpl. rewrite H. reflexivity.
Qed.

(** ** Calibration *)

(** C8 (as stated, refuted): a bar of exactly 40 px does not exceed the
    minimum, and the calibration is accepted: the factor is set and the phase
    advances. *)
Lemma setCalibration_accepts_40px :
  (barPx (setBarPx 40 initial) <=? 40) = true
  /\ cmPerPx (setCalibration (setBarPx 40 initial)) = Some 0.525
  /\ phase (setCalibration (setBarPx 40 initial)) = phase_measure.
Proof. repeat split; reflexivity. Qed.

(** C8 (amended): [setCalibration] refuses a bar strictly below 40 px and
    leaves the whole session as it is (factor, phase and windows); with a bar
    of 40 px or more it sets [cmPerPx] to [A4_WIDTH_CM / barPx], moves to the
    measuring phase and empties the four windows. *)
Theorem setCalibration_threshold (s : Session) :
  ((barPx s <? 40) = true -> setCalibration s = s)
  /\ ((40 <=? barPx s) = true ->
      cmPerPx (setCalibration s) = Some (A4_WIDTH_CM / barPx s)
      /\ phase (setCalibration s) = phase_measure
      /\ windows (setCalibration s) = ([], [], [], [])).
Proof.
  unfold setCalibration. split; intros H.
  - rewrite H. reflexivity.
  - rewrite (FloatOrder.leb_ltb_false _ _ H). repeat split.
Qed.

(** C9 (as stated, refuted): after a calibration with the 300 px bar, a
    shoulder distance of 400 px gives a [shoulderCm] that is not the number
    28.0: the product 400 * 0.07 of binary64 numbers is one unit in the last
    place above it. *)
Lemma shoulderCm_400px_is_not_28 :
  cmPerPx calibrated = Some 0.07
  /\ shoulderPx_of 1280 pose_one_hip = 400
  /\ (shoulderCm_of 1280 pose_one_hip 0.07 =? 28) = false
  /\ shoulderBuf (onResults frame_one_hip calibrated) = [28.000000000000004].
Proof. repeat split; reflexivity. Qed.

(** C9 (amended): with the 21 cm reference, a 300 px bar gives
    [cmPerPx = 0.07]; a shoulder distance of 400 px then gives the sample
    [400 * 0.07 = 28.000000000000004], which is 28.0 once rounded to one
    decimal, the value that the lock stores as [shoulderCm]. *)
Theorem calibration_300px_shoulder_400px :
  A4_WIDTH_CM = 21
  /\ barPx initial = 300
  /\ cmPerPx (setCalibration initial) = Some 0.07
  /\ shoulderPx_of 1280 pose_one_hip = 400
  /\ shoulderCm_of 1280 pose_one_hip 0.07 = 28.000000000000004
  /\ JS.Number_toFixed 1 (shoulderCm_of 1280 pose_one_hip 0.07) = 28
  /\ option_map shoulderCm
       (meas (run (repeat (Frame frame_one_hip) 12) (setCalibration initial))) = Some 28.
Proof. repeat split; vm_compute; reflexivity. Qed.

(** ** Resets *)

Lemma push_shift_length (n : nat) (buf : list float) (v : float) :
  List.length (push_shift n buf v)
  = if (n <? List.length buf + 1)%nat then List.length buf else (List.length buf + 1)%nat.
Proof.
  unfold push_shift. rewrite length_app. simpl.
  destruct (n <? List.length buf + 1)%nat; [|rewrite length_app; reflexivity].
  destruct buf; simpl; [reflexivity|]. rewrite length_app. simpl. lia.
Qed.

(** A frame that is pushed into empty windows cannot lock. *)
Lemma measureFrame_cold (W : float) (lm : list Landmark) (cm : float) (s : Session) :
  recentShoulderN s = [] -> phase (measureFrame W lm cm s) = phase s.
Proof.
  intros H. unfold measureFrame, pushMed. rewrite H.
  destruct (upperWaistCm_of W lm cm); reflexivity.
Qed.

Lemma onResults_phase_cold (res : Results) (s : Session) :
  recentShoulderN s = [] -> phase (onResults res s) = phase s.
Proof.
  intros H. unfold onResults.
  repeat match goal with
         | |- context [if ?b then _ else _] => destruct b
         | |- context [match poseLandmarks res with _ => _ end] => destruct (poseLandmarks res)
         end; try reflexivity.
  apply measureFrame_cold, H.
Qed.

(** C7: right after [retake] or [recalibrate], whatever the session was, the
    four windows have length zero; the next frame therefore starts from empty
    windows and cannot lock. *)
Theorem reset_clears_windows (s : Session) :
  (List.length (recentShoulderN (retake s)) = 0%nat
   /\ List.length (chestBuf (retake s)) = 0%nat
   /\ List.length (shoulderBuf (retake s)) = 0%nat
   /\ List.length (waistBuf (retake s)) = 0%nat)
  /\ (List.length (recentShoulderN (recalibrate s)) = 0%nat
      /\ List.length (chestBuf (recalibrate s)) = 0%nat
      /\ List.length (shoulderBuf (recalibrate s)) = 0%nat
      /\ List.length (waistBuf (recalibrate s)) = 0%nat)
  /\ (forall res, phase (onResults res (retake s)) = phase_measure)
  /\ (forall res, phase (onResults res (recalibrate s)) = phase_calibrate).
Proof.
  repeat split; try reflexivity; intros res.
  - rewrite onResults_phase_cold; reflexivity.
  - rewrite onResults_phase_cold; reflexivity.
Qed.

(** ** The landmark gate *)

Lemma gate_fails_guard (res : Results) (lm : list Landmark) :
  poseLandmarks res = Some lm -> gate_fails res = true ->
  negb (shouldersOK lm && hipsOK lm) = true.
Proof.
  unfold gate_fails, shouldersOK, hipsOK. intros ->.
  destruct (vis lm 11), (vis lm 12), (vis lm 23), (vis lm 24); simpl; congruence.
Qed.

(** A frame that is not accepted changes nothing but the status line. *)
Lemma onResults_not_accepted (res : Results) (s : Session) :
  accepts s res = false ->
  windows (onResults res s) = windows s
  /\ phase (onResults res s) = phase s
  /\ locked (onResults res s) = locked s
  /\ meas (onResults res s) = meas s
  /\ cmPerPx (onResults res s) = cmPerPx s
  /\ barPx (onResults res s) = barPx s.
Proof.
  unfold accepts, onResults, JS.not.
  destruct (locked s) eqn:El; simpl; [intros _; repeat split; assumption|].
  destruct (poseLandmarks res) as [lm|]; [|intros _; unchanged].
  destruct (shouldersOK lm && hipsOK lm); simpl; [|intros _; unchanged].
  destruct (inside _ _ lm); simpl; [|intros _; unchanged].
  destruct (Phase_eqb (phase s) phase_calibrate); simpl; [intros _; unchanged|].
  destruct (JS.truthy_opt (cmPerPx s)); simpl; [|intros _; unchanged].
  destruct (getDistance (shMid_of lm) (hip_of lm) <=? 0); simpl;
    [intros _; unchanged | discriminate].
Qed.

(** An accepted frame runs the measuring part of the callback. *)
Lemma onResults_accepted (res : Results) (s : Session) :
  accepts s res = true ->
  exists lm cm,
    poseLandmarks res = Some lm /\ cmPerPx s = Some cm /\ locked s = false
    /\ onResults res s = measureFrame (image_width res) lm cm s.
Proof.
  unfold accepts, onResults, JS.not.
  destruct (locked s) eqn:El; simpl; [discriminate|].
  destruct (poseLandmarks res) as [lm|]; [|discriminate].
  destruct (shouldersOK lm && hipsOK lm); simpl; [|discriminate].
  destruct (inside _ _ lm); simpl; [|discriminate].
  destruct (Phase_eqb (phase s) phase_calibrate); simpl; [discriminate|].
  destruct (cmPerPx s) as [cm|]; simpl; [|discriminate].
  destruct (JS.truthy cm); simpl; [|discriminate].
  destruct (getDistance (shMid_of lm) (hip_of lm) <=? 0); simpl; [discriminate|].
  intros _. exists lm, cm. repeat split.
Qed.

Lemma gate_fails_not_accepted (res : Results) (s : Session) :
  gate_fails res = true -> accepts s res = false.
Proof.
  intros H. unfold accepts.
  destruct (poseLandmarks res) as [lm|] eqn:E; [|apply andb_false_r].
  apply (gate_fails_guard res lm E) in H. apply negb_true_iff in H. rewrite H.
  apply andb_false_r.
Qed.

(** C6: a frame whose landmarks are absent, or in which a shoulder or both
    hips are absent or not above the visibility threshold, leaves the four
    windows as they are; when the frame is processed (the session is not
    locked) the status becomes the rejection message of the gate. *)
Theorem gate_rejection_keeps_windows (s : Session) (res : Results) :
  gate_fails res = true ->
  recentShoulderN (onResults res s) = recentShoulderN s
  /\ chestBuf (onResults res s) = chestBuf s
  /\ shoulderBuf (onResults res s) = shoulderBuf s
  /\ waistBuf (onResults res s) = waistBuf s
  /\ (locked s = false -> status (onResults res s) = rejection_status res).
Proof.
  intros H.
  destruct (onResults_not_accepted res s (gate_fails_not_accepted res s H)) as [Hw _].
  unfold windows in Hw. injection Hw as H1 H2 H3 H4. repeat split; try assumption.
  intros Hl. unfold onResults, rejection_status. rewrite Hl.
  destruct (poseLandmarks res) as [lm|] eqn:E; [|reflexivity].
  rewrite (gate_fails_guard res lm E H). reflexivity.
Qed.

Lemma gate_rejection_keeps_windows_witness :
  recentShoulderN (onResults frame_no_shoulder (onResults frame_one_hip calibrated))
  = recentShoulderN (onResults frame_one_hip calibrated)
  /\ status (onResults frame_no_shoulder (onResults frame_one_hip calibrated))
     = "Show shoulders & upper torso."%string.
Proof.
  destruct (gate_rejection_keeps_windows
              (onResults frame_one_hip calibrated) frame_no_shoulder eq_refl)
    as (H1 & _ & _ & _ & H5).
  split; [exact H1 | exact (H5 eq_refl)].
Defined.

(** ** The median smoother *)

Lemma insert_perm (v : float) (l : list float) : Permutation (insert v l) (v :: l).
Proof.
  induction l as [|w l IH]; simpl; [reflexivity|].
  destruct (w <? v); [|reflexivity].
  rewrite IH. apply perm_swap.
Qed.

Lemma sort_perm (l : list float) : Permutation (sort l) l.
Proof.
  induction l as [|v l IH]; simpl; [reflexivity|].
  rewrite insert_perm. apply perm_skip, IH.
Qed.

Lemma insert_sorted (v : float) (l : list float) :
  is_nan v = false -> no_nan l ->
  StronglySorted fle l -> StronglySorted fle (insert v l).
Proof.
  intros Hv Hl Hs. induction Hs as [|w l Hs IH Hw]; simpl.
  - constructor; constructor.
  - inversion Hl as [|? ? Hnw Hnl]; subst.
    destruct (w <? v) eqn:E.
    + constructor; [apply IH, Hnl|].
      eapply Permutation_Forall; [symmetry; apply insert_perm|].
      constructor; [apply FloatOrder.ltb_leb, E | exact Hw].
    + assert (Hvw : fle v w) by (apply FloatOrder.ltb_false_leb; assumption).
      constructor; [constructor; assumption|].
      constructor; [exact Hvw|].
      eapply Forall_impl; [|exact Hw].
      intros z Hz. exact (FloatOrder.leb_trans _ _ _ Hvw Hz).
Qed.

Lemma sort_sorted (l : list float) : no_nan l -> StronglySorted fle (sort l).
Proof.
  induction l as [|v l IH]; simpl; intros H; [constructor|].
  inversion H; subst. apply insert_sorted; auto.
  eapply Permutation_Forall; [symmetry; apply sort_perm | assumption].
Qed.

Lemma odd_of_nat (n : nat) : Z.odd (Z.of_nat n) = Nat.odd n.
Proof.
  destruct (Nat.odd n) eqn:E.
  - apply Nat.odd_spec in E as [k ->]. apply Z.odd_spec. exists (Z.of_nat k). lia.
  - rewrite <- Nat.negb_even in E. apply negb_false_iff in E.
    apply Nat.even_spec in E as [k ->].
    rewrite <- Z.negb_even. apply negb_false_iff, Z.even_spec. exists (Z.of_nat k). lia.
Qed.

(** On a window that is not empty the median of the code is the middle of
    its sorted copy. *)
Lemma median_of_middle (w : list float) : w <> [] -> median_of w = middle (sort w).
Proof.
  intros Hw. unfold median_of, middle, at_index.
  assert (Hlen : (0 < List.length (sort w))%nat).
  { rewrite (Permutation_length (sort_perm w)). destruct w; [congruence|simpl; lia]. }
  set (n := List.length (sort w)) in *.
  rewrite odd_of_nat.
  assert (Hm : Z.to_nat (Z.of_nat n / 2) = (n / 2)%nat).
  { change 2%Z with (Z.of_nat 2). rewrite <- Nat2Z.inj_div. apply Nat2Z.id. }
  assert (H0 : (Z.of_nat n / 2 <? 0)%Z = false).
  { apply Z.ltb_ge. apply Z.div_pos; lia. }
  rewrite H0, Hm.
  destruct (Nat.odd n) eqn:E; [reflexivity|].
  assert (H2 : (2 <= n)%nat).
  { destruct n as [|[|n']]; [lia| discriminate E |lia]. }
  assert (Hd : (1 <= n / 2)%nat).
  { change 1%nat with (2 / 2)%nat. apply Nat.Div0.div_le_mono. exact H2. }
  assert (H1 : (Z.of_nat n / 2 - 1 <? 0)%Z = false).
  { apply Z.ltb_ge. change 2%Z with (Z.of_nat 2). rewrite <- Nat2Z.inj_div. lia. }
  assert (Hm1 : Z.to_nat (Z.of_nat n / 2 - 1) = (n / 2 - 1)%nat).
  { change 2%Z with (Z.of_nat 2). rewrite <- Nat2Z.inj_div. lia. }
  rewrite H1, Hm1. reflexivity.
Qed.

Lemma push_shift_not_nil (n : nat) (buf : list float) (v : float) :
  (1 <= n)%nat -> push_shift n buf v <> [].
Proof.
  intros Hn H. apply (f_equal (@List.length float)) in H.
  rewrite push_shift_length in H. simpl in H.
  destruct (n <? List.length buf + 1)%nat eqn:E; [|lia].
  apply Nat.ltb_lt in E. lia.
Qed.

Lemma push_shift_no_nan (n : nat) (buf : list float) (v : float) :
  no_nan (buf ++ [v]) -> no_nan (push_shift n buf v).
Proof.
  unfold push_shift, no_nan. intros H.
  destruct (n <? _)%nat; [|exact H].
  destruct (buf ++ [v]); [exact H|]. inversion H; assumption.
Qed.

(** C5: after a push, [pushMed] returns the median of the window as it is
    after the push (the new sample appended, the oldest dropped when over
    capacity): the middle element of a sorted arrangement of the window when
    its length is odd, the average of the two middle elements when it is
    even.  The window [10, 12, 11] gives 11 and the window [10, 12] gives
    11. *)
Theorem pushMed_returns_median :
  (forall (buf : list float) (v : float) (n : nat),
     (1 <= n)%nat -> no_nan (buf ++ [v]) ->
     exists r, pushMed buf (Some v) n = (push_shift n buf v, Some r)
               /\ is_median (push_shift n buf v) r)
  /\ pushMed [10; 12] (Some 11) 15 = ([10; 12; 11], Some 11)
  /\ pushMed [10] (Some 12) 15 = ([10; 12], Some 11).
Proof.
  split; [|split; reflexivity].
  intros buf v n Hn Hnan. exists (median_of (push_shift n buf v)). split; [reflexivity|].
  exists (sort (push_shift n buf v)). split; [apply sort_perm|]. split.
  - apply sort_sorted, push_shift_no_nan, Hnan.
  - apply median_of_middle, push_shift_not_nil, Hn.
Qed.

(** ** The lock *)

Lemma upperWaistCm_of_hips (W : float) (lm : list Landmark) (cm : float) :
  match upperWaistCm_of W lm cm with
  | Some _ => vis lm 23 && vis lm 24 = true
  | None => vis lm 23 && vis lm 24 = false
  end.
Proof. unfold upperWaistCm_of. destruct (vis lm 23 && vis lm 24); reflexivity. Qed.

(** The measuring part of the callback, field by field. *)
Lemma measureFrame_spec (W : float) (lm : list Landmark) (cm : float) (s : Session) :
  let s' := measureFrame W lm cm s in
  recentShoulderN s'
  = push_shift STABILITY_FRAMES (recentShoulderN s)
      (getDistance (landmark lm 11) (landmark lm 12))
  /\ chestBuf s' = push_shift 15 (chestBuf s) (shoulderCm_of W lm cm * CHEST_MULTIPLIER)
  /\ shoulderBuf s' = push_shift 15 (shoulderBuf s) (shoulderCm_of W lm cm)
  /\ waistBuf s' = fst (pushMed (waistBuf s) (upperWaistCm_of W lm cm) 15)
  /\ cmPerPx s' = cmPerPx s
  /\ barPx s' = barPx s
  /\ if lock_test (recentShoulderN s') (chestBuf s') (shoulderBuf s')
     then phase s' = phase_locked /\ locked s' = true
          /\ meas s' = Some (locked_record (chestBuf s') (shoulderBuf s') (waistBuf s')
                                           (vis lm 23 && vis lm 24))
     else phase s' = phase s /\ locked s' = locked s /\ meas s' = meas s.
Proof.
  cbv zeta. unfold measureFrame, pushMed, lock_test.
  pose proof (upperWaistCm_of_hips W lm cm) as Hh.
  destruct (upperWaistCm_of W lm cm) as [wv|]; rewrite Hh; cbn [fst snd JS.truthy_opt JS.ToNumber];
    match goal with
    | |- context [if ?b then mkSession _ _ _ _ _ _ _ _ _ _ else _] => destruct b eqn:E
    end; cbn [recentShoulderN chestBuf shoulderBuf waistBuf cmPerPx barPx phase locked meas];
    rewrite ?andb_assoc in E |- *; rewrite E; repeat split.
Qed.

Lemma Phase_eqb_eq (a b : Phase) : Phase_eqb a b = true -> a = b.
Proof. destruct a, b; simpl; congruence. Qed.

Lemma push_shift_bound (n : nat) (buf : list float) (v : float) :
  (List.length buf <= n)%nat -> (List.length (push_shift n buf v) <= n)%nat.
Proof.
  intros H. rewrite push_shift_length.
  destruct (n <? List.length buf + 1)%nat eqn:E; [exact H|].
  apply Nat.ltb_ge in E. lia.
Qed.

Lemma pushMed_bound (n : nat) (buf : list float) (val : option float) :
  (List.length buf <= n)%nat -> (List.length (fst (pushMed buf val n)) <= n)%nat.
Proof.
  destruct val as [v|]; simpl; [apply push_shift_bound | trivial].
Qed.

(** A frame is accepted only outside the calibrating and locked phases. *)
Lemma accepted_phase (s : Session) (res : Results) :
  session_inv s -> accepts s res = true ->
  phase s = phase_measure \/ phase s = phase_error.
Proof.
  intros (Hp & _) Ha.
  destruct (onResults_accepted res s Ha) as (lm & cm & Hlm & _ & Hl & _).
  unfold accepts in Ha. rewrite Hl, Hlm in Ha. simpl in Ha.
  destruct (phase s); simpl in Ha; rewrite ?andb_false_r in Ha; simpl in Ha;
    try discriminate; auto.
  destruct Hp as [Hp _]. congruence.
Qed.

(** Every operation that the page offers keeps the invariant. *)
Lemma step_preserves_inv (s : Session) (ev : Event) :
  session_inv s -> offered s ev = true -> session_inv (step s ev).
Proof.
  intros Hinv Ho. pose proof Hinv as (Hp & Hn & Hc & Hs & Hw).
  destruct ev as [v| | | |res|msg]; simpl in Ho |- *.
  - repeat split; assumption.
  - apply Phase_eqb_eq in Ho. rewrite Ho in Hp. destruct Hp as [Hl Hm].
    unfold setCalibration. destruct (barPx s <? 40).
    + exact Hinv.
    + unfold session_inv; simpl. repeat split; try assumption; try lia. discriminate.
  - apply andb_true_iff in Ho as [Ho _]. apply Phase_eqb_eq in Ho. rewrite Ho in Hp.
    unfold session_inv; simpl. repeat split; try lia. apply Hp.
  - unfold session_inv; simpl. repeat split; lia.
  - destruct (accepts s res) eqn:Ea.
    + pose proof (accepted_phase s res Hinv Ea) as Hph.
      destruct (onResults_accepted res s Ea) as (lm & cm & Hlm & Hcm & Hl & ->).
      pose proof (measureFrame_spec (image_width res) lm cm s) as Hspec. cbv zeta in Hspec.
      destruct Hspec as (H1 & H2 & H3 & H4 & H5 & _ & H7).
      unfold session_inv. rewrite H1, H2, H3, H4, H5.
      split; [|repeat split;
               first [apply push_shift_bound; assumption | apply pushMed_bound; assumption]].
      destruct (lock_test _ _ _).
      * destruct H7 as (-> & -> & ->). rewrite Hcm. repeat split; discriminate.
      * destruct H7 as (-> & -> & ->). exact Hp.
    + destruct (onResults_not_accepted res s Ea) as (Hwin & H1 & H2 & H3 & H4 & _).
      unfold windows in Hwin. injection Hwin as W1 W2 W3 W4.
      unfold session_inv. rewrite H1, H2, H3, H4, W1, W2, W3, W4. exact Hinv.
  - unfold session_inv; simpl. split; [|repeat split; assumption].
    destruct (phase s).
    + right. exact Hp.
    + right. destruct Hp as (Hl & Hm & _). split; assumption.
    + left. destruct Hp as (Hl & Hm & _). split; assumption.
    + exact Hp.
Qed.

Lemma reachable_inv (s : Session) : reachable s -> session_inv s.
Proof.
  induction 1 as [|s ev Hr IH Ho].
  - unfold session_inv; simpl. repeat split; lia.
  - apply step_preserves_inv; assumption.
Qed.

Lemma reachable_run (evs : list Event) (s : Session) :
  reachable s -> all_offered evs s = true -> reachable (run evs s).
Proof.
  revert s. induction evs as [|ev evs IH]; simpl; intros s Hr Ho; [exact Hr|].
  apply andb_true_iff in Ho as [Ho1 Ho2].
  apply IH; [apply reachable_step; assumption | exact Ho2].
Qed.

(** In the calibrating phase no frame is accepted: the calibration factor is
    not read there. *)
Lemma calibrating_accepts_nothing (s : Session) (res : Results) :
  phase s = phase_calibrate -> accepts s res = false.
Proof.
  intros H. unfold accepts. rewrite H. simpl.
  destruct (poseLandmarks res); rewrite ?andb_false_r; reflexivity.
Qed.

(** ** The calibration factor across the phases *)

(** The retake button exists only on the result panel: called on the initial
    session, which the page does not offer, [retake] would enter the
    measuring phase with no calibration factor. *)
Example retake_is_not_offered_initially :
  offered initial Retake = false
  /\ phase (retake initial) = phase_measure /\ cmPerPx (retake initial) = None.
Proof. repeat split; reflexivity. Qed.

(** C1 (as stated, refuted): calibrate, hold still for twelve frames until
    the lock, then recalibrate.  Every operation is one that the page offers;
    the session is back in the calibrating phase and the calibration factor
    is still defined. *)
Lemma recalibrate_keeps_cmPerPx :
  all_offered (SetCalibration :: repeat (Frame frame_one_hip) 12 ++ [Recalibrate]) initial
  = true
  /\ phase (run (SetCalibration :: repeat (Frame frame_one_hip) 12 ++ [Recalibrate]) initial)
     = phase_calibrate
  /\ cmPerPx (run (SetCalibration :: repeat (Frame frame_one_hip) 12 ++ [Recalibrate]) initial)
     = Some 0.07.
Proof. repeat split; vm_compute; reflexivity. Qed.

(** C1 (amended): in every state that the page can reach (the slider and
    [setCalibration] while calibrating, [retake] and [recalibrate] on a
    locked result, frames at any time), the calibration factor is defined
    whenever the phase is measuring or locked.  The converse does not hold:
    [recalibrate] goes back to the calibrating phase and keeps the factor,
    which no frame reads in that phase. *)
Theorem cmPerPx_defined_when_measuring (s : Session) :
  reachable s ->
  (phase s = phase_measure \/ phase s = phase_locked -> cmPerPx s <> None)
  /\ cmPerPx (recalibrate s) = cmPerPx s
  /\ phase (recalibrate s) = phase_calibrate
  /\ (forall res, accepts (recalibrate s) res = false).
Proof.
  intros Hr. apply reachable_inv in Hr. destruct Hr as (Hp & _).
  split; [|repeat split].
  - intros [H|H]; rewrite H in Hp; apply Hp.
  - intros res. apply calibrating_accepts_nothing. reflexivity.
Qed.

Lemma cmPerPx_defined_when_measuring_witness : cmPerPx calibrated <> None.
Proof.
  apply (cmPerPx_defined_when_measuring calibrated
           (reachable_step initial SetCalibration reachable_initial eq_refl)).
  left. reflexivity.
Defined.

(** ** The transition from measuring to locked *)

Lemma spread_test (chest : list float) :
  (spread_of chest <? 1.8) = true <-> chest_converged chest.
Proof.
  unfold spread_of, chest_converged.
  destruct (8 <=? List.length chest)%nat eqn:E.
  - apply Nat.leb_le in E. tauto.
  - apply Nat.leb_gt in E. change (999 <? 1.8) with false. split.
    + discriminate.
    + intros [H _]. lia.
Qed.

Lemma lock_test_iff (bufN chest shoulder : list float) :
  (List.length bufN <= STABILITY_FRAMES)%nat ->
  lock_test bufN chest shoulder = true
  <-> stable_window bufN /\ chest_converged chest
      /\ JS.truthy (median_of chest) = true /\ JS.truthy (median_of shoulder) = true.
Proof.
  intros Hlen. unfold lock_test, stable_window.
  rewrite !andb_true_iff, spread_test, Nat.leb_le. split.
  - intros ((((H1 & H2) & H3) & H4) & H5).
    refine (conj (conj _ H2) (conj H3 (conj H4 H5))). lia.
  - intros ((H1 & H2) & H3 & H4 & H5).
    refine (conj (conj (conj (conj _ H2) H3) H4) H5). lia.
Qed.

(** Once locked, the callback returns at once: frames change nothing. *)
Lemma locked_frames_ignored (evs : list Event) (s : Session) :
  locked s = true -> forallb is_frame evs = true -> run evs s = s.
Proof.
  intros Hl. induction evs as [|ev evs IH]; simpl; [reflexivity|].
  intros H. apply andb_true_iff in H as [H1 H2].
  destruct ev as [v| | | |res|msg]; try discriminate. simpl.
  unfold onResults at 1. rewrite Hl. apply IH, H2.
Qed.

(** C3 (as stated, refuted), in two parts.  First, eleven frames of a
    subject seen from the side, then a twelfth: the frame is accepted, the
    stability window is full and within the tolerance, the chest spread is
    below 1.8 cm, the chest and shoulder medians are defined (they are the
    number 0), and the session does not lock.  Second, on a lock the stored
    chest is not the chest median but its rounding to one decimal. *)
Lemma lock_not_fired_on_zero_medians :
  (all_offered (SetCalibration :: repeat (Frame frame_sideways) 11) initial = true
   /\ accepts warm_sideways frame_sideways = true
   /\ stable_window (recentShoulderN (onResults frame_sideways warm_sideways))
   /\ chest_converged (chestBuf (onResults frame_sideways warm_sideways))
   /\ snd (pushMed (chestBuf warm_sideways) (Some 0) 15) = Some 0
   /\ snd (pushMed (shoulderBuf warm_sideways) (Some 0) 15) = Some 0
   /\ chestBuf (onResults frame_sideways warm_sideways)
      = fst (pushMed (chestBuf warm_sideways) (Some 0) 15)
   /\ phase (onResults frame_sideways warm_sideways) = phase_measure)
  /\ (phase (onResults frame_one_hip warm_one_hip) = phase_locked
      /\ median_of (chestBuf (onResults frame_one_hip warm_one_hip)) = 49.000000000000007
      /\ option_map chestCm (meas (onResults frame_one_hip warm_one_hip)) = Some 49).
Proof.
  split; [|repeat split; vm_compute; reflexivity].
  split; [vm_compute; reflexivity|]. split; [vm_compute; reflexivity|].
  split; [split; vm_compute; reflexivity|].
  split; [split; [vm_compute; lia | vm_compute; reflexivity]|].
  repeat split; vm_compute; reflexivity.
Qed.

(** C3 (amended): a reachable session accepts a frame only while measuring
    (or after a failure of the effect, with a calibration factor), and on
    such a frame the lock fires if and only if the stability window holds
    its 12 samples with a maximum deviation from their mean below 0.015, the
    chest window holds at least 8 samples with a range below 1.8 cm, and the
    chest and shoulder medians are truthy: defined, not zero and not NaN.
    On firing, the record stored is made of the chest and shoulder medians
    rounded to one decimal, of the length of the chest window and of the
    spread rounded to two decimals; the waist median rounded to one decimal
    is stored only when the locking frame shows both hips and that median
    is truthy, and the record has no waist when the frame lacks a hip or
    the median is zero or NaN.  From then on frames leave the whole
    session, windows and record, as it is. *)
Theorem lock_fires_iff (s : Session) (res : Results) :
  reachable s -> accepts s res = true ->
  (phase s = phase_measure \/ phase s = phase_error)
  /\ (phase (onResults res s) = phase_locked
      <-> stable_window (recentShoulderN (onResults res s))
          /\ chest_converged (chestBuf (onResults res s))
          /\ JS.truthy (median_of (chestBuf (onResults res s))) = true
          /\ JS.truthy (median_of (shoulderBuf (onResults res s))) = true)
  /\ (phase (onResults res s) = phase_locked ->
      (exists m, meas (onResults res s) = Some m
         /\ chestCm m = JS.Number_toFixed 1 (median_of (chestBuf (onResults res s)))
         /\ shoulderCm m = JS.Number_toFixed 1 (median_of (shoulderBuf (onResults res s)))
         /\ upperWaistCm m
            = (if both_hips res && JS.truthy (median_of (waistBuf (onResults res s)))
               then Some (JS.Number_toFixed 1 (median_of (waistBuf (onResults res s))))
               else None)
         /\ frames (quality m) = List.length (chestBuf (onResults res s))
         /\ spreadCm (quality m)
            = JS.Number_toFixed 2 (spread_of (chestBuf (onResults res s))))
      /\ forall evs, forallb is_frame evs = true ->
                     run evs (onResults res s) = onResults res s).
Proof.
  intros Hr Ha.
  pose proof (reachable_inv _ (reachable_step s (Frame res) Hr eq_refl)) as Hinv'.
  apply reachable_inv in Hr. pose proof (accepted_phase s res Hr Ha) as Hph.
  destruct Hinv' as (_ & Hn' & _). simpl in Hn'.
  destruct (onResults_accepted res s Ha) as (lm & cm & Hlm & Hcm & Hl & Heq).
  pose proof (measureFrame_spec (image_width res) lm cm s) as Hspec. cbv zeta in Hspec.
  rewrite <- Heq in Hspec. destruct Hspec as (_ & _ & _ & _ & _ & _ & H7).
  pose proof (lock_test_iff _ (chestBuf (onResults res s)) (shoulderBuf (onResults res s)) Hn')
    as Hiff.
  assert (Hhips : both_hips res = (vis lm 23 && vis lm 24)) by (unfold both_hips; rewrite Hlm; reflexivity).
  split; [exact Hph|].
  destruct (lock_test _ _ _).
  - destruct H7 as (H7p & H7l & H7m). split; [|split].
    + split; [intros _; apply Hiff; reflexivity | intros _; exact H7p].
    + rewrite Hhips, H7m. eexists. split; [reflexivity|]. repeat split.
    + intros evs. apply locked_frames_ignored, H7l.
  - destruct H7 as (H7p & _). rewrite H7p.
    assert (Hnl : phase s <> phase_locked) by (destruct Hph as [-> | ->]; discriminate).
    split.
    + split; [intros H; destruct (Hnl H) | intros H; apply Hiff in H; discriminate].
    + intros H. destruct (Hnl H).
Qed.

Lemma lock_fires_iff_witness :
  phase warm_one_hip = phase_measure
  /\ both_hips frame_one_hip = false
  /\ exists m, meas (onResults frame_one_hip warm_one_hip) = Some m
       /\ chestCm m = 49 /\ shoulderCm m = 28 /\ upperWaistCm m = None
       /\ frames (quality m) = 12%nat /\ spreadCm (quality m) = 0.
Proof.
  assert (Hr : reachable warm_one_hip).
  { apply reachable_run.
    - apply (reachable_step initial SetCalibration reachable_initial). reflexivity.
    - vm_compute. reflexivity. }
  assert (Ha : accepts warm_one_hip frame_one_hip = true) by (vm_compute; reflexivity).
  destruct (lock_fires_iff warm_one_hip frame_one_hip Hr Ha) as (_ & _ & H3).
  split; [reflexivity|]. split; [reflexivity|].
  destruct H3 as ((m & Hm & Hc & Hs & Hw & Hf & Hsp) & _); [vm_compute; reflexivity|].
  exists m. split; [exact Hm|].
  split; [rewrite Hc; vm_compute; reflexivity|].
  split; [rewrite Hs; vm_compute; reflexivity|].
  split; [rewrite Hw; vm_compute; reflexivity|].
  split; [rewrite Hf; vm_compute; reflexivity | rewrite Hsp; vm_compute; reflexivity].
Defined.

(** The waist of the record on two locks whose frames show both hips: hips
    320 px apart give a waist median of 20.16 cm, stored as 20.2; hips at
    the same abscissa give a waist median of 0, and the record has no
    waist. *)
Example waist_stored_only_when_truthy :
  (both_hips frame_both_hips = true
   /\ phase (run (SetCalibration :: repeat (Frame frame_both_hips) 12) initial) = phase_locked
   /\ option_map upperWaistCm
        (meas (run (SetCalibration :: repeat (Frame frame_both_hips) 12) initial))
      = Some (Some 20.2))
  /\ (both_hips frame_hips_aligned = true
      /\ phase (run (SetCalibration :: repeat (Frame frame_hips_aligned) 12) initial)
         = phase_locked
      /\ median_of (waistBuf (run (SetCalibration :: repeat (Frame frame_hips_aligned) 12)
                                  initial)) = 0
      /\ option_map upperWaistCm
           (meas (run (SetCalibration :: repeat (Frame frame_hips_aligned) 12) initial))
         = Some None).
Proof.
  repeat split; vm_compute; reflexivity.
Qed.

(** ** Locking without a waist *)




(** ** More on the order of numbers *)

Module FloatFacts.

Lemma ltb_leb_false a b : (a <? b) = true -> (b <=? a) = false.
Proof.
  rewrite ltb_spec, leb_spec. unfold SFltb, SFleb.
  rewrite (FloatOrder.SFcompare_antisym (Prim2SF a) (Prim2SF b)).
  destruct (SFcompare _ _) as [[]|]; simpl; congruence.
Qed.

Lemma leb_strict a b : (a <=? b) = true -> (b <=? a) = false -> (a <? b) = true.
Proof.
  rewrite ltb_spec, !leb_spec. unfold SFltb, SFleb.
  rewrite (FloatOrder.SFcompare_antisym (Prim2SF a) (Prim2SF b)).
  destruct (SFcompare _ _) as [[]|]; simpl; congruence.
Qed.

Lemma leb_ltb_trans a b c : (a <=? b) = true -> (b <? c) = true -> (a <? c) = true.
Proof.
  intros Hab Hbc. apply leb_strict.
  - exact (FloatOrder.leb_trans _ _ _ Hab (FloatOrder.ltb_leb _ _ Hbc)).
  - destruct (c <=? a) eqn:E; [|reflexivity].
    pose proof (FloatOrder.leb_trans _ _ _ E Hab) as H.
    rewrite (ltb_leb_false _ _ Hbc) in H. discriminate.
Qed.

Lemma ltb_leb_trans a b c : (a <? b) = true -> (b <=? c) = true -> (a <? c) = true.
Proof.
  intros Hab Hbc. apply leb_strict.
  - exact (FloatOrder.leb_trans _ _ _ (FloatOrder.ltb_leb _ _ Hab) Hbc).
  - destruct (c <=? a) eqn:E; [|reflexivity].
    pose proof (FloatOrder.leb_trans _ _ _ Hbc E) as H.
    rewrite (ltb_leb_false _ _ Hab) in H. discriminate.
Qed.

Lemma ltb_not_nan a b : (a <? b) = true -> is_nan a = false /\ is_nan b = false.
Proof.
  unfold is_nan. rewrite ltb_spec, !FloatAxioms.eqb_spec. unfold SFltb, SFeqb.
  destruct (Prim2SF a) as [s| s| |s m e], (Prim2SF b) as [s'| s'| |s' m' e'];
    simpl; try discriminate; intros _; rewrite ?Z.compare_refl;
    change (Pos.compare_cont Eq ?p ?q) with (Pos.compare p q);
    rewrite ?Pos.compare_refl;
    repeat match goal with b : bool |- _ => destruct b end; simpl; auto.
Qed.

Lemma eqb_leb a b : (a =? b) = true -> (a <=? b) = true.
Proof.
  rewrite FloatAxioms.eqb_spec, leb_spec. unfold SFeqb, SFleb.
  destruct (SFcompare _ _) as [[]|]; congruence.
Qed.

(** A number above a threshold is not below a lower one. *)
Lemma below_threshold a t t' :
  (a <? t) = true -> (t <=? t') = true -> (t' <=? a) = false.
Proof.
  intros Ha Ht. apply ltb_leb_false. exact (ltb_leb_trans _ _ _ Ha Ht).
Qed.

(** The positive numbers are the truthy numbers that are not [<= 0]. *)
Lemma positive_truthy a : (0 <? a) = true <-> JS.truthy a = true /\ (a <=? 0) = false.
Proof.
  unfold JS.truthy, is_zero. split.
  - intros H. pose proof (ltb_leb_false _ _ H) as Hle.
    destruct (ltb_not_nan _ _ H) as [_ Hn]. rewrite Hn. split; [|exact Hle].
    destruct (a =? zero) eqn:E; [|reflexivity].
    apply eqb_leb in E. change zero with 0 in E. congruence.
  - intros [Ht Hle]. apply negb_true_iff, orb_false_iff in Ht as [_ Hn].
    destruct (0 <? a) eqn:E; [reflexivity|].
    rewrite (FloatOrder.ltb_false_leb a 0 Hn eq_refl E) in Hle. discriminate.
Qed.

End FloatFacts.

(** ** The two-size classifier, beyond its guard *)

Lemma positive_guard (v : option float) :
  positive v = true <-> JS.not v || (JS.ToNumber v <=? 0) = false.
Proof.
  destruct v as [a|]; simpl; [|split; discriminate].
  unfold JS.not. simpl. rewrite FloatFacts.positive_truthy. split.
  - intros [-> ->]. reflexivity.
  - intros H. apply orb_false_iff in H as [H1 H2].
    apply negb_false_iff in H1. split; assumption.
Qed.

(** The guard of the classifiers is passed exactly by three positive
    numbers. *)
Lemma guard_passes (c w sh : option float) :
  positive c && positive w && positive sh = true
  <-> JS.not c || JS.not w || JS.not sh
      || (JS.ToNumber c <=? 0) || (JS.ToNumber w <=? 0) || (JS.ToNumber sh <=? 0) = false.
Proof.
  rewrite !andb_true_iff, !orb_false_iff, !positive_guard, !orb_false_iff. tauto.
Qed.

(** X1: [recommendTopSize] returns a label exactly when chest, waist and
    shoulder are all positive numbers, and the label is then ['L'] or
    ['XL']; nothing else ever comes out of it. *)
Theorem recommendTopSize_domain (c w sh : option float) :
  (positive c && positive w && positive sh = true
   -> Frontend.recommendTopSize c w sh = Some sz_L
      \/ Frontend.recommendTopSize c w sh = Some sz_XL)
  /\ (forall l, Frontend.recommendTopSize c w sh = Some l ->
        positive c && positive w && positive sh = true /\ (l = sz_L \/ l = sz_XL)).
Proof.
  unfold Frontend.recommendTopSize.
  destruct (positive c && positive w && positive sh) eqn:E.
  - apply guard_passes in E. rewrite E. split.
    + intros _. destruct (_ <? _)%Z; auto.
    + intros l. destruct (_ <? _)%Z; intros [= <-]; auto.
  - split; [discriminate|]. intros l.
    destruct (JS.not c || JS.not w || JS.not sh || (JS.ToNumber c <=? 0)
              || (JS.ToNumber w <=? 0) || (JS.ToNumber sh <=? 0)) eqn:G; [discriminate|].
    apply guard_passes in G. congruence.
Qed.

(** X2: when no measure reaches a band that favours XL (chest below 90,
    shoulder below 45, waist below 80) the label is ['L'], ties included;
    when every measure is in such a band (chest at least 90, shoulder at
    least 45, waist at least 80) the label is ['XL']. *)
Theorem recommendTopSize_bands (c w sh : float) :
  ((0 <? c) = true -> (0 <? w) = true -> (0 <? sh) = true ->
   (c <? 90) = true -> (sh <? 45) = true -> (w <? 80) = true ->
   Frontend.recommendTopSize (Some c) (Some w) (Some sh) = Some sz_L)
  /\ ((90 <=? c) = true -> (45 <=? sh) = true -> (80 <=? w) = true ->
      Frontend.recommendTopSize (Some c) (Some w) (Some sh) = Some sz_XL).
Proof.
  split.
  - intros Pc Pw Ps Hc Hs Hw.
    assert (G : positive (Some c) && positive (Some w) && positive (Some sh) = true)
      by (simpl; rewrite Pc, Pw, Ps; reflexivity).
    apply guard_passes in G. unfold Frontend.recommendTopSize. rewrite G.
    unfold Frontend.chest_score, Frontend.shoulder_score, Frontend.waist_score. simpl JS.ToNumber.
    rewrite (FloatFacts.below_threshold c 90 100 Hc eq_refl),
            (FloatFacts.below_threshold c 90 95 Hc eq_refl),
            (FloatFacts.below_threshold c 90 90 Hc eq_refl),
            (FloatFacts.below_threshold sh 45 48 Hs eq_refl),
            (FloatFacts.below_threshold sh 45 45 Hs eq_refl),
            (FloatFacts.below_threshold w 80 85 Hw eq_refl),
            (FloatFacts.below_threshold w 80 80 Hw eq_refl).
    repeat match goal with |- context [if ?b <=? ?a then _ else _] => destruct (b <=? a) end;
      reflexivity.
  - intros Hc Hs Hw.
    assert (G : positive (Some c) && positive (Some w) && positive (Some sh) = true).
    { simpl.
      rewrite (FloatFacts.ltb_leb_trans 0 90 c eq_refl Hc),
              (FloatFacts.ltb_leb_trans 0 80 w eq_refl Hw),
              (FloatFacts.ltb_leb_trans 0 45 sh eq_refl Hs). reflexivity. }
    apply guard_passes in G. unfold Frontend.recommendTopSize. rewrite G.
    unfold Frontend.chest_score, Frontend.shoulder_score, Frontend.waist_score. simpl JS.ToNumber.
    rewrite Hc, Hs, Hw.
    repeat match goal with |- context [if ?b <=? ?a then _ else _] => destruct (b <=? a) end;
      reflexivity.
Qed.

(** X3: the label is not monotone in the chest: with a shoulder in
    [45, 48) and a waist below 70, a chest below 80 gives ['XL'] while a
    larger chest in [85, 90) gives ['L']. *)
Theorem recommendTopSize_not_monotone (c1 c2 w sh : float) :
  (0 <? c1) = true -> (c1 <? 80) = true ->
  (85 <=? c2) = true -> (c2 <? 90) = true ->
  (45 <=? sh) = true -> (sh <? 48) = true ->
  (0 <? w) = true -> (w <? 70) = true ->
  (c1 <? c2) = true
  /\ Frontend.recommendTopSize (Some c1) (Some w) (Some sh) = Some sz_XL
  /\ Frontend.recommendTopSize (Some c2) (Some w) (Some sh) = Some sz_L.
Proof.
  intros P1 H1 L2 H2 Ls Hs Pw Hw.
  assert (Ps : (0 <? sh) = true) by exact (FloatFacts.ltb_leb_trans 0 45 sh eq_refl Ls).
  assert (P2 : (0 <? c2) = true) by exact (FloatFacts.ltb_leb_trans 0 85 c2 eq_refl L2).
  split; [exact (FloatFacts.ltb_leb_trans c1 80 c2 H1
                   (FloatOrder.leb_trans 80 85 c2 eq_refl L2))|].
  assert (Hsh : Frontend.shoulder_score sh = (0, 1)%Z).
  { unfold Frontend.shoulder_score.
    rewrite (FloatFacts.below_threshold sh 48 48 Hs eq_refl), Ls. reflexivity. }
  assert (Hwa : Frontend.waist_score w = (0, 0)%Z).
  { unfold Frontend.waist_score.
    rewrite (FloatFacts.below_threshold w 70 85 Hw eq_refl),
            (FloatFacts.below_threshold w 70 80 Hw eq_refl),
            (FloatFacts.below_threshold w 70 75 Hw eq_refl),
            (FloatFacts.below_threshold w 70 70 Hw eq_refl). reflexivity. }
  split.
  - assert (G : positive (Some c1) && positive (Some w) && positive (Some sh) = true)
      by (simpl; rewrite P1, Pw, Ps; reflexivity).
    apply guard_passes in G. unfold Frontend.recommendTopSize. rewrite G.
    simpl JS.ToNumber. rewrite Hsh, Hwa. unfold Frontend.chest_score.
    rewrite (FloatFacts.below_threshold c1 80 100 H1 eq_refl),
            (FloatFacts.below_threshold c1 80 95 H1 eq_refl),
            (FloatFacts.below_threshold c1 80 90 H1 eq_refl),
            (FloatFacts.below_threshold c1 80 85 H1 eq_refl),
            (FloatFacts.below_threshold c1 80 80 H1 eq_refl). reflexivity.
  - assert (G : positive (Some c2) && positive (Some w) && positive (Some sh) = true)
      by (simpl; rewrite P2, Pw, Ps; reflexivity).
    apply guard_passes in G. unfold Frontend.recommendTopSize. rewrite G.
    simpl JS.ToNumber. rewrite Hsh, Hwa. unfold Frontend.chest_score.
    rewrite (FloatFacts.below_threshold c2 90 100 H2 eq_refl),
            (FloatFacts.below_threshold c2 90 95 H2 eq_refl),
            (FloatFacts.below_threshold c2 90 90 H2 eq_refl), L2. reflexivity.
Qed.

Lemma recommendTopSize_not_monotone_witness :
  (79 <? 86) = true
  /\ Frontend.recommendTopSize (Some 79) (Some 60) (Some 46) = Some sz_XL
  /\ Frontend.recommendTopSize (Some 86) (Some 60) (Some 46) = Some sz_L.
Proof.
  apply (recommendTopSize_not_monotone 79 86 60 46); reflexivity.
Defined.

(** ** The general classifier, beyond its fallback *)

(** X4: on three positive measures (the waist being [upperWaistCm ||
    waistCm]) the label of [estimateSizeFromMeasurements] lies in
    [sizeOrder] at most two places away from the size that the chest alone
    gives. *)
Theorem estimateSize_near_primary (m : Backend.Measurements) (c : float) :
  Backend.chestCm m = Some c ->
  positive (Some c)
  && positive (JS.or (Backend.upperWaistCm m) (Backend.waistCm m))
  && positive (Backend.shoulderCm m) = true ->
  (Z.abs (Backend.indexOf (Backend.estimateSizeFromMeasurements m) Backend.sizeOrder
          - Backend.indexOf (Backend.primarySize c) Backend.sizeOrder) <= 2)%Z.
Proof.
  intros Hc G. apply guard_passes in G.
  unfold Backend.estimateSizeFromMeasurements. cbv zeta. rewrite Hc, G.
  simpl JS.ToNumber.
  destruct (Backend.primarySize c);
    repeat match goal with |- context [if ?a <? ?b then _ else _] => destruct (a <? b) end;
    vm_compute; discriminate.
Qed.

Lemma estimateSize_near_primary_witness :
  (Z.abs (Backend.indexOf
            (Backend.estimateSizeFromMeasurements
               (Backend.mkMeasurements (Some 116%float) (Some 110%float) None
                                       (Some 75%float)))
            Backend.sizeOrder
          - Backend.indexOf (Backend.primarySize 116%float) Backend.sizeOrder) <= 2)%Z.
Proof.
  apply (estimateSize_near_primary
           (Backend.mkMeasurements (Some 116) (Some 110) None (Some 75)) 116); reflexivity.
Defined.

(** X5: the chest-based size never goes down when the chest goes up. *)
Theorem primarySize_monotone (c1 c2 : float) :
  (c1 <=? c2) = true ->
  (Backend.indexOf (Backend.primarySize c1) Backend.sizeOrder
   <= Backend.indexOf (Backend.primarySize c2) Backend.sizeOrder)%Z.
Proof.
  intros Hle.
  assert (H : forall t, (c2 <? t) = true -> (c1 <? t) = true)
    by (intros t; apply FloatFacts.leb_ltb_trans, Hle).
  unfold Backend.primarySize.
  destruct (c2 <? 80) eqn:E80; [rewrite (H _ E80); vm_compute; discriminate|].
  destruct (c2 <? 85) eqn:E85;
    [rewrite (H _ E85);
     repeat match goal with |- context [if c1 <? ?t then _ else _] => destruct (c1 <? t) end;
     vm_compute; discriminate|].
  destruct (c2 <? 90) eqn:E90;
    [rewrite (H _ E90);
     repeat match goal with |- context [if c1 <? ?t then _ else _] => destruct (c1 <? t) end;
     vm_compute; discriminate|].
  destruct (c2 <? 95) eqn:E95;
    [rewrite (H _ E95);
     repeat match goal with |- context [if c1 <? ?t then _ else _] => destruct (c1 <? t) end;
     vm_compute; discriminate|].
  destruct (c2 <? 100) eqn:E100;
    [rewrite (H _ E100);
     repeat match goal with |- context [if c1 <? ?t then _ else _] => destruct (c1 <? t) end;
     vm_compute; discriminate|].
  destruct (c2 <? 105) eqn:E105;
    [rewrite (H _ E105);
     repeat match goal with |- context [if c1 <? ?t then _ else _] => destruct (c1 <? t) end;
     vm_compute; discriminate|].
  destruct (c2 <? 110) eqn:E110;
    [rewrite (H _ E110);
     repeat match goal with |- context [if c1 <? ?t then _ else _] => destruct (c1 <? t) end;
     vm_compute; discriminate|].
  destruct (c2 <? 115) eqn:E115;
    [rewrite (H _ E115)|];
    repeat match goal with |- context [if c1 <? ?t then _ else _] => destruct (c1 <? t) end;
    vm_compute; discriminate.
Qed.

Lemma primarySize_monotone_witness :
  (Backend.indexOf (Backend.primarySize 84%float) Backend.sizeOrder
   <= Backend.indexOf (Backend.primarySize 101%float) Backend.sizeOrder)%Z.
Proof. apply (primarySize_monotone 84 101). reflexivity. Defined.

(** ** Invariants of the session *)

Lemma measureFrame_status (W : float) (lm : list Landmark) (cm : float) (s : Session) :
  status (measureFrame W lm cm s)
  = if lock_test (recentShoulderN (measureFrame W lm cm s))
                 (chestBuf (measureFrame W lm cm s)) (shoulderBuf (measureFrame W lm cm s))
    then "Locked ✔️"%string else "Hold still…"%string.
Proof.
  unfold measureFrame, pushMed, lock_test.
  destruct (upperWaistCm_of W lm cm) as [wv|]; cbn [fst snd JS.truthy_opt JS.ToNumber];
    match goal with
    | |- context [if ?b then mkSession _ _ _ _ _ _ _ _ _ _ else _] => destruct b eqn:E
    end; cbn [recentShoulderN chestBuf shoulderBuf status];
    rewrite ?andb_assoc in E |- *; rewrite E; reflexivity.
Qed.

(** A frame that an unlocked session does not accept sets one of the
    rejection messages. *)
Lemma onResults_rejected_status (res : Results) (s : Session) :
  locked s = false -> accepts s res = false ->
  In (status (onResults res s)) rejection_messages.
Proof.
  unfold accepts, onResults, JS.not, rejection_messages. intros ->. simpl.
  destruct (poseLandmarks res) as [lm|]; [|intros _; simpl; tauto].
  destruct (shouldersOK lm && hipsOK lm); simpl; [|intros _; tauto].
  destruct (inside _ _ lm); simpl; [|intros _; tauto].
  destruct (Phase_eqb (phase s) phase_calibrate); simpl; [intros _; tauto|].
  destruct (JS.truthy_opt (cmPerPx s)); simpl; [|intros _; tauto].
  destruct (getDistance (shMid_of lm) (hip_of lm) <=? 0); simpl;
    [intros _; tauto | discriminate].
Qed.

Lemma locked_message_not_rejection : ~ In "Locked ✔️"%string rejection_messages.
Proof.
  unfold rejection_messages. simpl. intros H.
  repeat (destruct H as [H|H]; [discriminate H|]). exact H.
Qed.

Lemma step_preserves_windows_inv (s : Session) (ev : Event) :
  session_inv s -> windows_inv s -> offered s ev = true -> windows_inv (step s ev).
Proof.
  intros Hinv (H1 & H2 & H3 & H4 & H5 & H6) Ho.
  pose proof Hinv as (Hp & Hn & Hc & _ & Hwb).
  destruct ev as [v| | | |res|msg]; simpl in Ho |- *.
  - exact (conj H1 (conj H2 (conj H3 (conj H4 (conj H5 H6))))).
  - unfold setCalibration. destruct (barPx s <? 40).
    + exact (conj H1 (conj H2 (conj H3 (conj H4 (conj H5 H6))))).
    + unfold windows_inv; simpl.
      refine (conj eq_refl (conj eq_refl (conj (le_n 0) (conj _ (conj _ (conj _ _))))));
        discriminate.
  - unfold windows_inv; simpl.
    refine (conj eq_refl (conj eq_refl (conj (le_n 0) (conj _ (conj _ (conj _ _))))));
      discriminate.
  - unfold windows_inv; simpl.
    refine (conj eq_refl (conj eq_refl (conj (le_n 0) (conj _ (conj _ (conj _ _))))));
      try discriminate. reflexivity.
  - destruct (accepts s res) eqn:Ea.
    + pose proof (accepted_phase s res Hinv Ea) as Hph.
      destruct (onResults_accepted res s Ea) as (lm & cm & Hlm & Hcm & Hl & Heq).
      pose proof (measureFrame_status (image_width res) lm cm s) as Hst.
      pose proof (measureFrame_spec (image_width res) lm cm s) as Hspec. cbv zeta in Hspec.
      rewrite <- Heq in Hspec, Hst.
      destruct Hspec as (S1 & S2 & S3 & S4 & _ & _ & S7).
      assert (L1 : List.length (chestBuf (onResults res s))
                   = Nat.min 15 (List.length (chestBuf s) + 1)).
      { rewrite S2, push_shift_length.
        destruct (Nat.ltb_spec 15 (List.length (chestBuf s) + 1)); lia. }
      assert (L2 : List.length (shoulderBuf (onResults res s))
                   = Nat.min 15 (List.length (chestBuf s) + 1)).
      { rewrite S3, push_shift_length, H1.
        destruct (Nat.ltb_spec 15 (List.length (chestBuf s) + 1)); lia. }
      assert (L3 : List.length (recentShoulderN (onResults res s))
                   = Nat.min 12 (List.length (recentShoulderN s) + 1)).
      { rewrite S1, push_shift_length. unfold STABILITY_FRAMES in *.
        destruct (Nat.ltb_spec 12 (List.length (recentShoulderN s) + 1)); lia. }
      assert (L4 : (List.length (waistBuf (onResults res s))
                    <= Nat.min 15 (List.length (waistBuf s) + 1))%nat).
      { rewrite S4. unfold pushMed. destruct (upperWaistCm_of _ _ _); cbn [fst].
        - rewrite push_shift_length.
          destruct (Nat.ltb_spec 15 (List.length (waistBuf s) + 1)); lia.
        - lia. }
      unfold windows_inv. unfold STABILITY_FRAMES in *.
      split; [lia|]. split; [lia|]. split; [lia|].
      destruct (lock_test (recentShoulderN (onResults res s)) (chestBuf (onResults res s))
                          (shoulderBuf (onResults res s))) eqn:Elt.
      * destruct S7 as (S7p & _ & S7m). rewrite S7p, Hst.
        split; [discriminate|]. split; [|tauto].
        intros _. split; [reflexivity|]. eexists. exact S7m.
      * destruct S7 as (S7p & _). rewrite S7p, Hst.
        destruct Hph as [-> | ->];
          (split; [discriminate|]); (split; [discriminate|]); split; discriminate.
    + destruct (onResults_not_accepted res s Ea) as (Hwin & P1 & P2 & P3 & _).
      pose proof Hwin as Hwin'.
      unfold windows in Hwin. injection Hwin as W1 W2 W3 W4.
      unfold windows_inv. rewrite Hwin', P1, P3, W1, W2, W3, W4.
      refine (conj H1 (conj H2 (conj H3 (conj H4 (conj H5 _))))).
      destruct (locked s) eqn:El.
      * unfold onResults. rewrite El. exact H6.
      * split.
        -- intros Hs. exfalso. apply locked_message_not_rejection.
           rewrite <- Hs. apply onResults_rejected_status; assumption.
        -- intros Hph. rewrite Hph in Hp. destruct Hp as [Hp _]. congruence.
  - unfold windows_inv; simpl.
    refine (conj H1 (conj H2 (conj H3 (conj _ (conj _ (conj _ _)))))); discriminate.
Qed.

Lemma reachable_windows_inv (s : Session) : reachable s -> windows_inv s.
Proof.
  induction 1 as [|s ev Hr IH Ho].
  - unfold windows_inv; simpl. repeat split; try reflexivity; try discriminate; lia.
  - apply step_preserves_windows_inv; [apply reachable_inv|..]; assumption.
Qed.

Lemma reachable_calibrated : reachable calibrated.
Proof. exact (reachable_step initial SetCalibration reachable_initial eq_refl). Qed.

Lemma reachable_warm_one_hip : reachable warm_one_hip.
Proof. apply reachable_run; [apply reachable_calibrated | vm_compute; reflexivity]. Qed.

Lemma reachable_locked_one_hip : reachable locked_one_hip.
Proof. exact (reachable_step warm_one_hip (Frame frame_one_hip) reachable_warm_one_hip eq_refl). Qed.

(** X6: in every state that the page can reach, no window exceeds its
    capacity (12 for the stability window, 15 for the three others), the
    chest and shoulder windows have the same length, the stability window
    holds the last [min 12 n] frames when the chest window holds [n], and the
    waist window is never longer than the chest window. *)
Theorem window_lengths (s : Session) :
  reachable s ->
  (List.length (recentShoulderN s) <= 12)%nat
  /\ (List.length (chestBuf s) <= 15)%nat
  /\ List.length (shoulderBuf s) = List.length (chestBuf s)
  /\ List.length (recentShoulderN s) = Nat.min 12 (List.length (chestBuf s))
  /\ (List.length (waistBuf s) <= List.length (chestBuf s))%nat.
Proof.
  intros Hr. destruct (reachable_inv s Hr) as (_ & Hn & Hc & _).
  destruct (reachable_windows_inv s Hr) as (H1 & H2 & H3 & _).
  repeat split; assumption.
Qed.

Lemma window_lengths_witness :
  (List.length (recentShoulderN locked_one_hip) <= 12)%nat
  /\ (List.length (chestBuf locked_one_hip) <= 15)%nat
  /\ List.length (shoulderBuf locked_one_hip) = List.length (chestBuf locked_one_hip)
  /\ List.length (recentShoulderN locked_one_hip)
     = Nat.min 12 (List.length (chestBuf locked_one_hip))
  /\ (List.length (waistBuf locked_one_hip) <= List.length (chestBuf locked_one_hip))%nat.
Proof. exact (window_lengths locked_one_hip reachable_locked_one_hip). Defined.

(** The effect can fail after a lock: the page is then in the phase
    [error] with the [locked] flag set and the record still there. *)
Example error_after_lock :
  reachable (effectError "no camera" locked_one_hip)
  /\ phase (effectError "no camera" locked_one_hip) = phase_error
  /\ locked (effectError "no camera" locked_one_hip) = true
  /\ meas (effectError "no camera" locked_one_hip) = meas locked_one_hip.
Proof.
  split; [|repeat split].
  exact (reachable_step locked_one_hip (EffectError "no camera")
           reachable_locked_one_hip eq_refl).
Qed.

(** X7: in every state that the page can reach, the failure of the effect
    included, the [locked] flag is set exactly when a measurement record
    exists; the phase [locked] implies the flag, and the flag implies the
    phase [locked] or, after a failure of the effect, [error]; the status
    line is "Locked" exactly in the phase [locked]. *)
Theorem locked_phase_flag_record (s : Session) :
  reachable s ->
  (locked s = true <-> meas s <> None)
  /\ (phase s = phase_locked -> locked s = true)
  /\ (locked s = true -> phase s = phase_locked \/ phase s = phase_error)
  /\ (status s = "Locked ✔️"%string <-> phase s = phase_locked).
Proof.
  intros Hr. destruct (reachable_inv s Hr) as (Hp & _).
  destruct (reachable_windows_inv s Hr) as (_ & _ & _ & _ & _ & H6).
  refine (conj _ (conj _ (conj _ H6))); revert Hp; clear H6; destruct (phase s).
  - intros (Hl & Hm). rewrite Hl, Hm. split; [discriminate | congruence].
  - intros (Hl & Hm & _). rewrite Hl, Hm. split; [discriminate | congruence].
  - intros (Hl & Hm & _). rewrite Hl. split; [intros _; exact Hm | reflexivity].
  - intros [(Hl & Hm) | (Hl & Hm)]; rewrite Hl.
    + split; [intros _; exact Hm | reflexivity].
    + rewrite Hm. split; [discriminate | congruence].
  - discriminate.
  - discriminate.
  - intros (Hl & _) _. exact Hl.
  - discriminate.
  - intros (Hl & _). rewrite Hl. discriminate.
  - intros (Hl & _). rewrite Hl. discriminate.
  - auto.
  - auto.
Qed.

Lemma locked_phase_flag_record_witness :
  (locked locked_one_hip = true <-> meas locked_one_hip <> None)
  /\ (phase locked_one_hip = phase_locked -> locked locked_one_hip = true)
  /\ (locked locked_one_hip = true ->
      phase locked_one_hip = phase_locked \/ phase locked_one_hip = phase_error)
  /\ (status locked_one_hip = "Locked ✔️"%string <-> phase locked_one_hip = phase_locked).
Proof. exact (locked_phase_flag_record locked_one_hip reachable_locked_one_hip). Defined.

(** X8: while the page is calibrating, the four windows are empty: nothing
    is measured before a calibration, and nothing survives a
    recalibration. *)
Theorem calibrating_windows_empty (s : Session) :
  reachable s -> phase s = phase_calibrate ->
  recentShoulderN s = [] /\ chestBuf s = [] /\ shoulderBuf s = [] /\ waistBuf s = [].
Proof.
  intros Hr Hph. destruct (reachable_windows_inv s Hr) as (_ & _ & _ & H4 & _).
  specialize (H4 Hph). unfold windows in H4. injection H4 as -> -> -> ->. repeat split.
Qed.

Lemma calibrating_windows_empty_witness :
  recentShoulderN (recalibrate locked_one_hip) = []
  /\ chestBuf (recalibrate locked_one_hip) = []
  /\ shoulderBuf (recalibrate locked_one_hip) = []
  /\ waistBuf (recalibrate locked_one_hip) = [].
Proof.
  apply (calibrating_windows_empty (recalibrate locked_one_hip)).
  - exact (reachable_step locked_one_hip Recalibrate reachable_locked_one_hip eq_refl).
  - reflexivity.
Defined.

(** X9: in every locked state that the page can reach, the stored record is
    the one computed from the windows as they stand (the windows are those
    of the locking frame), the stability and convergence tests hold of these
    windows, both medians are truthy, and the record counts between 12 and
    15 frames. *)
Theorem locked_record_matches_windows (s : Session) :
  reachable s -> phase s = phase_locked ->
  (exists hips, meas s = Some (locked_record (chestBuf s) (shoulderBuf s) (waistBuf s) hips))
  /\ stable_window (recentShoulderN s)
  /\ chest_converged (chestBuf s)
  /\ JS.truthy (median_of (chestBuf s)) = true
  /\ JS.truthy (median_of (shoulderBuf s)) = true
  /\ (12 <= List.length (chestBuf s) <= 15)%nat.
Proof.
  intros Hr Hph. destruct (reachable_inv s Hr) as (_ & Hn & Hc & _).
  destruct (reachable_windows_inv s Hr) as (_ & H2 & _ & _ & H5 & _).
  destruct (H5 Hph) as (Ht & Hm).
  apply (lock_test_iff _ _ _ Hn) in Ht. destruct Ht as (Hs & Hcv & T1 & T2).
  refine (conj Hm (conj Hs (conj Hcv (conj T1 (conj T2 _))))).
  destruct Hs as [Hs _]. unfold STABILITY_FRAMES in *. lia.
Qed.

Lemma locked_record_matches_windows_witness :
  option_map (fun m => frames (quality m)) (meas locked_one_hip) = Some 12%nat.
Proof.
  destruct (locked_record_matches_windows locked_one_hip reachable_locked_one_hip eq_refl)
    as ((hips & Hm) & _).
  rewrite Hm. reflexivity.
Defined.






(** X11: no frame is dropped silently by an unlocked session: a frame that
    is not accepted sets one of the six rejection messages, an accepted
    frame sets "Locked" when it locks and "Hold still" otherwise. *)
Theorem every_frame_sets_status (s : Session) (res : Results) :
  locked s = false ->
  (accepts s res = false -> In (status (onResults res s)) rejection_messages)
  /\ (accepts s res = true ->
      (locked (onResults res s) = true /\ status (onResults res s) = "Locked ✔️"%string)
      \/ (locked (onResults res s) = false
          /\ status (onResults res s) = "Hold still…"%string)).
Proof.
  intros Hl. split.
  - apply onResults_rejected_status, Hl.
  - intros Ha. destruct (onResults_accepted res s Ha) as (lm & cm & _ & _ & _ & ->).
    pose proof (measureFrame_status (image_width res) lm cm s) as Hst.
    pose proof (measureFrame_spec (image_width res) lm cm s) as Hspec. cbv zeta in Hspec.
    destruct Hspec as (_ & _ & _ & _ & _ & _ & S7).
    destruct (lock_test (recentShoulderN (measureFrame (image_width res) lm cm s))
                        (chestBuf (measureFrame (image_width res) lm cm s))
                        (shoulderBuf (measureFrame (image_width res) lm cm s))).
    + left. split; [apply S7 | exact Hst].
    + right. destruct S7 as (_ & -> & _). split; [exact Hl | exact Hst].
Qed.

Lemma every_frame_sets_status_witness :
  In (status (onResults frame_no_shoulder calibrated)) rejection_messages.
Proof.
  apply (every_frame_sets_status calibrated frame_no_shoulder); reflexivity.
Defined.

(** ** The windows as queues *)

(** X12: a window within its capacity keeps, after a push, the last [n]
    samples of the arrivals in their order of arrival (the oldest is the one
    evicted), and the sample just pushed is its last element. *)
Theorem push_shift_keeps_newest (n : nat) (buf : list float) (v : float) :
  (List.length buf <= n)%nat ->
  push_shift n buf v = skipn (List.length (buf ++ [v]) - n) (buf ++ [v])
  /\ ((1 <= n)%nat -> exists older, push_shift n buf v = older ++ [v]).
Proof.
  intros Hlen. unfold push_shift. rewrite length_app. simpl List.length.
  destruct (Nat.ltb_spec n (List.length buf + 1)) as [Hlt|Hge].
  - replace (List.length buf + 1 - n)%nat with 1%nat by lia. split.
    + destruct (buf ++ [v]); reflexivity.
    + intros Hn. destruct buf as [|a buf']; simpl in *; [lia|].
      exists buf'. reflexivity.
  - replace (List.length buf + 1 - n)%nat with 0%nat by lia. split; [reflexivity|].
    intros _. exists buf. reflexivity.
Qed.

Lemma push_shift_keeps_newest_witness :
  push_shift 3 [1; 2; 3] 4 = skipn (List.length ([1; 2; 3] ++ [4]) - 3) ([1; 2; 3] ++ [4])
  /\ ((1 <= 3)%nat -> exists older, push_shift 3 [1; 2; 3] 4 = older ++ [4]).
Proof. apply (push_shift_keeps_newest 3 [1; 2; 3] 4). simpl. lia. Defined.

(** X13: when the window holds an odd number of samples after the push (as
    a full window of 15 does), the value that [pushMed] returns is one of
    the samples of the window: the smoother does not invent a value. *)
Theorem pushMed_odd_returns_sample (buf : list float) (v : float) (n : nat) :
  (1 <= n)%nat -> Nat.odd (List.length (push_shift n buf v)) = true ->
  exists r, snd (pushMed buf (Some v) n) = Some r /\ In r (push_shift n buf v).
Proof.
  intros Hn Hodd. exists (median_of (push_shift n buf v)). split; [reflexivity|].
  rewrite (median_of_middle _ (push_shift_not_nil n buf v Hn)).
  unfold middle. rewrite (Permutation_length (sort_perm _)), Hodd.
  apply (Permutation_in _ (sort_perm (push_shift n buf v))).
  apply nth_In. rewrite (Permutation_length (sort_perm _)).
  apply Nat.div_lt; [|lia].
  pose proof (push_shift_not_nil n buf v Hn) as Hne.
  destruct (push_shift n buf v); [congruence | simpl; lia].
Qed.

Lemma pushMed_odd_returns_sample_witness :
  exists r, snd (pushMed [10; 12] (Some 11) 15) = Some r /\ In r (push_shift 15 [10; 12] 11).
Proof. apply (pushMed_odd_returns_sample [10; 12] 11 15); [lia | reflexivity]. Defined.

(** ** The overlay *)

Lemma vis_not_below_04 (lm : list Landmark) (i : nat) :
  vis lm i = true ->
  exists p, nth_error lm i = Some p /\ (Overlay.visibility_or_0 p <? 0.4) = false.
Proof.
  unfold vis, Overlay.visibility_or_0. destruct (nth_error lm i) as [p|]; [|discriminate].
  intros H. exists p. split; [reflexivity|].
  apply FloatOrder.leb_ltb_false.
  exact (FloatOrder.leb_trans 0.4 0.45 _ eq_refl (FloatOrder.ltb_leb _ _ H)).
Qed.

(** X14: the overlay and the gate agree: a segment between two landmarks
    that pass the visibility test of the gate (above 0.45) is always drawn
    by [drawSeg] (which draws from 0.4), from one landmark to the other in
    pixels; so every frame whose shoulders pass the gate shows the shoulder
    line of the skeleton. *)
Theorem gate_visible_segments_drawn (lm : list Landmark) (W H : float) :
  (forall (a b : nat) (color : string) (width : float),
     vis lm a = true -> vis lm b = true ->
     Overlay.drawSeg lm a b color width W H
     = Some (Overlay.mkSegment (x (landmark lm a) * W) (y (landmark lm a) * H)
                               (x (landmark lm b) * W) (y (landmark lm b) * H)
                               color width))
  /\ (shouldersOK lm = true ->
      In (Overlay.mkSegment (x (landmark lm 11) * W) (y (landmark lm 11) * H)
                            (x (landmark lm 12) * W) (y (landmark lm 12) * H)
                            "#3B82F6" 4)
         (Overlay.drawSkeleton lm W H)).
Proof.
  assert (Hseg : forall (a b : nat) (color : string) (width : float),
     vis lm a = true -> vis lm b = true ->
     Overlay.drawSeg lm a b color width W H
     = Some (Overlay.mkSegment (x (landmark lm a) * W) (y (landmark lm a) * H)
                               (x (landmark lm b) * W) (y (landmark lm b) * H)
                               color width)).
  { intros a b color width Ha Hb.
    destruct (vis_not_below_04 lm a Ha) as (A & HA & VA).
    destruct (vis_not_below_04 lm b Hb) as (B & HB & VB).
    unfold Overlay.drawSeg, landmark. rewrite HA, HB, VA, VB.
    rewrite (nth_error_nth _ _ _ HA), (nth_error_nth _ _ _ HB). reflexivity. }
  split; [exact Hseg|].
  intros Hsh. apply andb_true_iff in Hsh as [H11 H12].
  unfold Overlay.drawSkeleton. apply in_or_app. left.
  apply in_flat_map. exists (11, 12)%nat. split.
  - unfold Overlay.UPPER. simpl. tauto.
  - cbn [fst snd]. rewrite (Hseg 11%nat 12%nat _ _ H11 H12). left. reflexivity.
Qed.

(** ** From the locked measurement to the recommendation service *)

Lemma label_two_sizes (c w sh : option float) (l : SizeLabel) :
  Frontend.recommendTopSize c w sh = Some l -> l = sz_L \/ l = sz_XL.
Proof.
  unfold Frontend.recommendTopSize.
  destruct (JS.not c || _ || _ || _ || _ || _); [discriminate|].
  destruct (_ <? _)%Z; intros [= <-]; auto.
Qed.







(** X16: the "Get Recommendations" button navigates exactly when the three
    locked measures are positive numbers; the size it hands over is then
    ['L'] or ['XL'] with the three measures of the record, and the request
    that the recommendations page sends for it reaches the recommendation
    service with that size, the gender ['Men'], 20 recommendations and
    [include_images_only]. *)
Theorem get_recommendations_button (m : Meas) :
  (Handover.onGetRecommendations m = None
   <-> positive (Some (chestCm m)) && positive (upperWaistCm m)
       && positive (Some (shoulderCm m)) = false)
  /\ forall p, Handover.onGetRecommendations m = Some p ->
       (Handover.size p = "L"%string \/ Handover.size p = "XL"%string)
       /\ Handover.measurements p = (chestCm m, shoulderCm m, upperWaistCm m)
       /\ Routes.upper_body
            (Routes.received
               (Recommendations.request (js_val (Handover.size p))
                                        (js_val (Handover.gender p))))
          = Routes.Forward
              (Routes.mkRequestData (j_string (Handover.size p)) (j_string "Men")
                                    (j_number 20) true).
Proof.
  unfold Handover.onGetRecommendations, recommended. split.
  - unfold Frontend.recommendTopSize.
    destruct (positive (Some (chestCm m)) && positive (upperWaistCm m)
              && positive (Some (shoulderCm m))) eqn:E.
    + apply guard_passes in E. rewrite E. destruct (_ <? _)%Z; split; discriminate.
    + destruct (JS.not (Some (chestCm m)) || JS.not (upperWaistCm m)
                || JS.not (Some (shoulderCm m)) || (JS.ToNumber (Some (chestCm m)) <=? 0)
                || (JS.ToNumber (upperWaistCm m) <=? 0)
                || (JS.ToNumber (Some (shoulderCm m)) <=? 0)) eqn:G; [tauto|].
      apply guard_passes in G. congruence.
  - intros p.
    destruct (Frontend.recommendTopSize (Some (chestCm m)) (upperWaistCm m)
                                        (Some (shoulderCm m))) as [l|] eqn:E;
      [|discriminate].
    intros [= <-]. cbn [Handover.size Handover.gender Handover.measurements].
    destruct (label_two_sizes _ _ _ _ E) as [-> | ->]; repeat split; auto.
Qed.



(** The route on bodies whose size is not a string: the numbers [0] and the
    boolean [false] are refused like a missing size, the number [42] is
    forwarded as a number, and a request without a body is answered from
    the [catch]. *)
Example upper_body_sizes_of_other_types :
  Routes.upper_body (Some (j_object [("size"%string, j_number 0)]))
  = Routes.BadRequest "Size parameter is required"
  /\ Routes.upper_body (Some (j_object [("size"%string, j_bool false)]))
     = Routes.BadRequest "Size parameter is required"
  /\ Routes.upper_body (Some (j_object []))
     = Routes.BadRequest "Size parameter is required"
  /\ Routes.upper_body (Some (j_array []))
     = Routes.BadRequest "Size parameter is required"
  /\ Routes.upper_body (Some (j_object [("size"%string, j_number 42)]))
     = Routes.Forward (Routes.mkRequestData (j_number 42) (j_string "Men") (j_number 10) true)
  /\ Routes.upper_body (Some (j_object [("size"%string, j_string "L");
                                         ("size"%string, j_string "")]))
     = Routes.BadRequest "Size parameter is required"
  /\ Routes.upper_body None = Routes.ServerError "Failed to get recommendations".
Proof.
  repeat split; vm_compute; reflexivity.
Qed.

(** ** The recommendations page *)

(** X18: the confidence badge is consistent: [getConfidenceText] says
    "High" exactly when [getConfidenceColor] is green, "Medium" exactly when
    it is yellow and "Low" exactly when it is red; a score of at least 0.8
    is "High", and a missing score is "Low". *)
Theorem confidence_text_matches_color (score : option float) :
  (Recommendations.getConfidenceText score = "High"%string
   <-> Recommendations.getConfidenceColor score = "text-green-600"%string)
  /\ (Recommendations.getConfidenceText score = "Medium"%string
      <-> Recommendations.getConfidenceColor score = "text-yellow-600"%string)
  /\ (Recommendations.getConfidenceText score = "Low"%string
      <-> Recommendations.getConfidenceColor score = "text-red-600"%string)
  /\ (forall a, score = Some a -> (0.8 <=? a) = true ->
        Recommendations.getConfidenceText score = "High"%string)
  /\ (score = None -> Recommendations.getConfidenceText score = "Low"%string).
Proof.
  unfold Recommendations.getConfidenceText, Recommendations.getConfidenceColor.
  destruct score as [a|].
  - destruct (0.8 <=? a) eqn:E8; [|destruct (0.6 <=? a)];
      (split; [split; intros; first [reflexivity | discriminate]|]);
      (split; [split; intros; first [reflexivity | discriminate]|]);
      (split; [split; intros; first [reflexivity | discriminate]|]);
      (split; [intros b [= <-] Hb; first [reflexivity | congruence] | discriminate]).
  - repeat split; intros; first [reflexivity | discriminate].
Qed.

(** X19: [getImageUrl] never returns the empty string: a missing or empty
    path gives the placeholder, a path under [data/images/] gets the host of
    the image server in front, any other path is kept; applying it to its
    own result changes nothing. *)
Theorem getImageUrl_total_idempotent (imagePath : jsval string) :
  Recommendations.getImageUrl imagePath <> ""%string
  /\ Recommendations.getImageUrl (js_val (Recommendations.getImageUrl imagePath))
     = Recommendations.getImageUrl imagePath
  /\ (forall path, imagePath = js_val path -> String.prefix "data/images/" path = true ->
        Recommendations.getImageUrl imagePath
        = String.append "http://localhost:5001/" path).
Proof.
  unfold Recommendations.getImageUrl. destruct imagePath as [| |path].
  - repeat split; try discriminate.
  - repeat split; try discriminate.
  - destruct (String.eqb path "") eqn:E0.
    + split; [discriminate|]. split; [reflexivity|].
      intros q [= <-] Hq. apply String.eqb_eq in E0. subst path. discriminate Hq.
    + destruct (String.prefix "data/images/" path) eqn:Ep.
      * split; [discriminate|]. split; [reflexivity|]. intros q [= <-] _. reflexivity.
      * split; [apply String.eqb_neq, E0|]. split; [rewrite E0, Ep; reflexivity|].
        intros q [= <-] Hq. congruence.
Qed.

(** X20: the size that [ApiService.searchProducts] sends is [null] when no
    size is given, and otherwise the empty string, ['L'] or ['XL']: a size
    outside the two is replaced by ['L'], and validating twice changes
    nothing. *)
Theorem searchProducts_size_valid (size : jsval string) :
  (ApiService.searchProducts_size size = js_null
   \/ ApiService.searchProducts_size size = js_val ""%string
   \/ ApiService.searchProducts_size size = js_val "L"%string
   \/ ApiService.searchProducts_size size = js_val "XL"%string)
  /\ ApiService.searchProducts_size (ApiService.searchProducts_size size)
     = ApiService.searchProducts_size size
  /\ (ApiService.includes ApiService.validSizes size = true ->
      ApiService.searchProducts_size size = size).
Proof.
  unfold ApiService.searchProducts_size. destruct size as [| |z]; simpl.
  - repeat split; auto. discriminate.
  - repeat split; auto.
  - destruct (String.eqb z "") eqn:E0; simpl.
    + apply String.eqb_eq in E0. subst z. simpl. repeat split; auto.
    + destruct (String.eqb z "L") eqn:EL; simpl.
      * apply String.eqb_eq in EL. subst z. simpl. repeat split; auto.
      * destruct (String.eqb z "XL") eqn:EX; simpl.
        -- apply String.eqb_eq in EX. subst z. simpl. repeat split; auto.
        -- repeat split; auto. discriminate.
Qed.

